(** * rust_metadata_carver: recovery of [core::panic::Location] records

    A shallow embedding of the Binary Ninja plugin in [__init__.py]:
    the [CorePanicLocation] helper class and the three nested stages of
    [main] (candidate scan, record synthesis, tagging), run against an
    explicit model of the [BinaryView] the plugin talks to.

    Python text ([str]) is a list of code points, Python [bytes] a list
    of bytes; the two are kept apart because the plugin decodes one
    into the other and [pathlib] indexes text by code point. *)

From Stdlib Require Import ZArith String List.
From Stdlib.Strings Require Import Byte.
From stdpp Require Import gmap strings list fin_maps pretty.

Set Warnings "-register-all".

Local Open Scope N_scope.

(** ** Python text and bytes *)

Module Text.

Abbreviation pystr := (list N).
Abbreviation pybytes := (list byte).

(** An ASCII literal of the source, as text. *)
Definition lit (s : string) : pystr := map Byte.to_N (list_byte_of_string s).

Definition str_eqb (a b : pystr) : bool := bool_decide (a = b).

Fixpoint startswith (pre s : pystr) : bool :=
  match pre, s with
  | [], _ => true
  | _ :: _, [] => false
  | a :: pre', b :: s' => (a =? b) && startswith pre' s'
  end.

(** [needle in hay] *)
Fixpoint contains (needle hay : pystr) : bool :=
  startswith needle hay ||
  match hay with
  | [] => false
  | _ :: hay' => contains needle hay'
  end.

(** [s.split(sep)] for a one-character separator: never empty. *)
Fixpoint split (sep : N) (s : pystr) : list pystr :=
  match s with
  | [] => [[]]
  | c :: s' =>
      if c =? sep then [] :: split sep s'
      else match split sep s' with
           | h :: t => (c :: h) :: t
           | [] => [[c]]
           end
  end.

(** [s.replace(a, b)] for one-character [a] and [b]. *)
Definition replace (a b : N) (s : pystr) : pystr :=
  map (fun c => if c =? a then b else c) s.

(** [s.find(c, start)]: [None] stands for Python's -1. *)
Fixpoint find_aux (c : N) (s : pystr) (i : nat) : option nat :=
  match s with
  | [] => None
  | x :: s' => if x =? c then Some i else find_aux c s' (S i)
  end.

Definition find (c : N) (start : nat) (s : pystr) : option nat :=
  find_aux c (drop start s) start.

(** [s.rfind(c)] *)
Fixpoint rfind_aux (c : N) (s : pystr) (i : nat) (best : option nat) : option nat :=
  match s with
  | [] => best
  | x :: s' => rfind_aux c s' (S i) (if x =? c then Some i else best)
  end.

Definition rfind (c : N) (s : pystr) : option nat := rfind_aux c s 0%nat None.

(** [s[i:j]] for in-range, non-negative bounds *)
Definition slice (i j : nat) (s : pystr) : pystr := take (j - i) (drop i s).

(** [s.upper()] on the ASCII letters; the only use compares the
    result with an ASCII prefix. *)
Definition upper (s : pystr) : pystr :=
  map (fun c => if (97 <=? c) && (c <=? 122) then c - 32 else c) s.

(** *** Strict UTF-8 decoding, [bytes.decode("utf-8")]

    A byte-at-a-time automaton: [pending] continuation bytes are
    still owed, the next one must lie in [lo..hi], and [acc] holds
    the bits of the code point read so far.  Over-long forms,
    surrogates and values above U+10FFFF are rejected, as CPython
    does. *)
Fixpoint decode_from (pending : nat) (lo hi acc : N) (bs : list N) : option pystr :=
  match bs with
  | [] => match pending with O => Some [] | S _ => None end
  | b :: rest =>
      match pending with
      | O =>
          if b <? 0x80 then cons b <$> decode_from 0 0x80 0xBF 0 rest
          else if (0xC2 <=? b) && (b <=? 0xDF) then decode_from 1 0x80 0xBF (N.land b 0x1F) rest
          else if b =? 0xE0 then decode_from 2 0xA0 0xBF (N.land b 0x0F) rest
          else if b =? 0xED then decode_from 2 0x80 0x9F (N.land b 0x0F) rest
          else if (0xE1 <=? b) && (b <=? 0xEF) then decode_from 2 0x80 0xBF (N.land b 0x0F) rest
          else if b =? 0xF0 then decode_from 3 0x90 0xBF (N.land b 0x07) rest
          else if (0xF1 <=? b) && (b <=? 0xF3) then decode_from 3 0x80 0xBF (N.land b 0x07) rest
          else if b =? 0xF4 then decode_from 3 0x80 0x8F (N.land b 0x07) rest
          else None
      | S k =>
          if (lo <=? b) && (b <=? hi) then
            let acc' := acc * 64 + N.land b 0x3F in
            match k with
            | O => cons acc' <$> decode_from 0 0x80 0xBF 0 rest
            | S _ => decode_from k 0x80 0xBF acc' rest
            end
          else None
      end
  end.

Definition decode_utf8 (b : pybytes) : option pystr :=
  decode_from 0 0x80 0xBF 0 (map Byte.to_N b).

(** [str(n)] and [format(n, "#x")] for an integer *)
Definition of_Z (z : Z) : pystr := lit (pretty z).

Definition hex_digit (d : N) : N := if d <? 10 then 48 + d else 87 + d.

Fixpoint hex_digits_pos (p : positive) (fuel : nat) (acc : pystr) : pystr :=
  match fuel with
  | O => acc
  | S fuel' =>
      let n := Npos p in
      let acc' := hex_digit (n mod 16) :: acc in
      match n / 16 with
      | N0 => acc'
      | Npos q => hex_digits_pos q fuel' acc'
      end
  end.

Definition hex_of_Z (z : Z) : pystr :=
  match z with
  | Z0 => lit "0x0"
  | Zpos p => lit "0x" ++ hex_digits_pos p (Pos.size_nat p) []
  | Zneg p => lit "-0x" ++ hex_digits_pos p (Pos.size_nat p) []
  end.

End Text.

Import Text.

(** ** The part of [pathlib] the plugin relies on

    [PurePosixPath] and [PureWindowsPath] as CPython 3.12 defines them:
    a path object keeps the text it was built from, and [suffix] is read
    off the last component of the tail that [_parse_path] computes with
    [posixpath.splitroot] or [ntpath.splitroot]. *)

Module Pathlib.

Inductive flavour := posixpath | ntpath.

Record PurePath := { path_flavour : flavour; raw_path : pystr }.

(** What the plugin hands to a path constructor: text, or a path
    object built earlier. *)
Inductive PathLike :=
| PText (s : pystr)
| PPath (p : PurePath).

Definition sep (fl : flavour) : N :=
  match fl with posixpath => 47 | ntpath => 92 end.

(** [posixpath.splitroot(p)]: drive, root, tail *)
Definition posix_splitroot (p : pystr) : pystr * pystr * pystr :=
  if negb (str_eqb (slice 0 1 p) [47]) then ([], [], p)
  else if negb (str_eqb (slice 1 2 p) [47]) || str_eqb (slice 2 3 p) [47]
  then ([], [47], drop 1 p)
  else ([], take 2 p, drop 2 p).

(** [ntpath.splitroot(p)]: drive, root, tail *)
Definition nt_splitroot (p : pystr) : pystr * pystr * pystr :=
  let normp := replace 47 92 p in
  if str_eqb (slice 0 1 normp) [92] then
    if str_eqb (slice 1 2 normp) [92] then
      let start := if str_eqb (upper (take 8 normp)) (lit "\\?\UNC\") then 8%nat else 2%nat in
      match find 92 start normp with
      | None => (p, [], [])
      | Some index =>
          match find 92 (index + 1) normp with
          | None => (p, [], [])
          | Some index2 => (take index2 p, slice index2 (index2 + 1) p, drop (index2 + 1) p)
          end
      end
    else ([], take 1 p, drop 1 p)
  else if str_eqb (slice 1 2 normp) [58] then
    if str_eqb (slice 2 3 normp) [92] then (take 2 p, slice 2 3 p, drop 3 p)
    else (take 2 p, [], drop 2 p)
  else ([], [], p).

Definition splitroot (fl : flavour) (p : pystr) : pystr * pystr * pystr :=
  match fl with
  | posixpath => posix_splitroot p
  | ntpath => nt_splitroot p
  end.

(** The tail of [PurePath._parse_path]: the components after drive
    and root, with empty and [.] components dropped.  (The drive and
    root adjustments of [_parse_path] do not touch the tail.) *)
Definition parse_tail (fl : flavour) (path : pystr) : list pystr :=
  match path with
  | [] => []
  | _ =>
      let path := match fl with ntpath => replace 47 92 path | posixpath => path end in
      let '(_, _, rel) := splitroot fl path in
      List.filter (fun x => negb (str_eqb x []) && negb (str_eqb x [46])) (split (sep fl) rel)
  end.

(** [PurePosixPath(arg)] / [PureWindowsPath(arg)] for one argument.
    A Windows path object given to the POSIX constructor has its
    backslashes turned into slashes. *)
Definition new_path (fl : flavour) (arg : PathLike) : PurePath :=
  match arg with
  | PText s => {| path_flavour := fl; raw_path := s |}
  | PPath p =>
      match path_flavour p, fl with
      | ntpath, posixpath => {| path_flavour := fl; raw_path := replace 92 47 (raw_path p) |}
      | _, _ => {| path_flavour := fl; raw_path := raw_path p |}
      end
  end.

(** [path.name] *)
Definition name (p : PurePath) : pystr :=
  match last (parse_tail (path_flavour p) (raw_path p)) with
  | None => []
  | Some n => n
  end.

(** [path.suffix]: the text from the last dot of [name], unless that
    dot is the first or the last character. *)
Definition suffix (p : PurePath) : pystr :=
  let n := name p in
  match rfind 46 n with
  | Some i => if (0 <? i)%nat && (i <? length n - 1)%nat then drop i n else []
  | None => []
  end.

End Pathlib.

Import Pathlib.

(** ** Python values the host hands out *)

(** The value of a data variable: [None], an integer, a byte string,
    text, or a dictionary of member values for a structure. *)
Inductive PyVal :=
| VNone
| VInt (z : Z)
| VBytes (b : pybytes)
| VStr (s : pystr)
| VDict (d : list (pystr * PyVal)).

Inductive PyExc :=
| AttributeError
| KeyError
| TypeError
| ArgumentError
| SyntaxError
| UnboundLocalError
| UnicodeDecodeError.

Module Repr.

Definition hex2 (c : N) : pystr := [hex_digit (c / 16); hex_digit (c mod 16)].

(** [c] in hexadecimal, in exactly [digits] digits *)
Fixpoint hex_fixed (digits : nat) (c : N) : pystr :=
  match digits with
  | O => []
  | S n => hex_fixed n (c / 16) ++ [hex_digit (c mod 16)]
  end.

Definition quote_for (s : pystr) : N :=
  if bool_decide (39 ∈ s) && negb (bool_decide (34 ∈ s)) then 34 else 39.

(** How [repr] writes one code point between the quotes.  Up to
    U+007F the answer is fixed.  Above, a code point is copied when
    [printable] says so and spelled out as [\xhh], [\uhhhh] or
    [\Uhhhhhhhh] otherwise; [printable] is [str.isprintable], which
    the interpreter answers from its Unicode database. *)
Definition escape (printable : N -> bool) (quote : N) (c : N) : pystr :=
  if (c =? quote) || (c =? 92) then [92; c]
  else if c =? 9 then lit "\t"
  else if c =? 10 then lit "\n"
  else if c =? 13 then lit "\r"
  else if (c <? 32) || (c =? 127) then lit "\x" ++ hex2 c
  else if c <? 127 then [c]
  else if printable c then [c]
  else if c <? 256 then lit "\x" ++ hex2 c
  else if c <? 65536 then lit "\u" ++ hex_fixed 4 c
  else lit "\U" ++ hex_fixed 8 c.

(** [repr] of text *)
Definition str_repr (printable : N -> bool) (s : pystr) : pystr :=
  let q := quote_for s in
  [q] ++ concat (map (escape printable q) s) ++ [q].

(** [repr] of a byte string: every byte above 0x7E is spelled out. *)
Definition bytes_repr (b : pybytes) : pystr :=
  let s := map Byte.to_N b in
  let q := quote_for s in
  [98; q] ++ concat (map (escape (fun _ => false) q) s) ++ [q].

Fixpoint repr (printable : N -> bool) (v : PyVal) : pystr :=
  match v with
  | VNone => lit "None"
  | VInt z => of_Z z
  | VBytes b => bytes_repr b
  | VStr s => str_repr printable s
  | VDict d =>
      let fix items (d : list (pystr * PyVal)) : pystr :=
        match d with
        | [] => []
        | (k, x) :: rest =>
            str_repr printable k ++ lit ": " ++ repr printable x ++
            match rest with [] => [] | _ :: _ => lit ", " ++ items rest end
        end in
      lit "{" ++ items d ++ lit "}"
  end.

(** [str(v)], which is what an f-string field [{v}] inserts *)
Definition str (printable : N -> bool) (v : PyVal) : pystr :=
  match v with
  | VStr s => s
  | _ => repr printable v
  end.

End Repr.

(** [d.get(k)] on the member list of a dictionary value *)
Fixpoint dict_lookup (k : pystr) (d : list (pystr * PyVal)) : option PyVal :=
  match d with
  | [] => None
  | (k', v) :: d' => if str_eqb k k' then Some v else dict_lookup k d'
  end.

(** ** The host: Binary Ninja's [BinaryView] *)

Local Open Scope Z_scope.

(** A [DataVariable] as the plugin sees it: where it is, the name of
    the symbol there ([None] when there is none) and its decoded
    value, all as read when the object was obtained. *)
Record DataVariable := {
  dv_address : Z;
  dv_name : option pystr;
  dv_value : PyVal
}.

Inductive TypeObj :=
| IntegerType (width : Z)
| NamedTypeReferenceType (name : pystr)
| StructureType (packed : bool) (members : list (pystr * TypeObj)).

Record Tag := {
  tag_addr : Z;
  tag_type_name : pystr;
  tag_data : pystr;
  tag_user : bool
}.

(** The calls that change the view or drive its undo machinery, in the
    order they were made, each with what it was given and, for a
    definition request, what it answered. *)
Inductive HostCall :=
| CallDefineUserType (name : pystr) (type_obj : TypeObj)
| CallBeginUndoActions
| CallDefineUserDataVar (addr : Z) (var_type name : pystr) (result : option DataVariable)
| CallCreateTagType (name icon : pystr)
| CallAddTag (addr : Z) (type_name data : pystr) (user : bool)
| CallCommitUndoActions
| CallUpdateAnalysis.

Inductive LogLevel := Info | Error.

(** The view, the session log and the character table of the
    interpreter the plugin runs in.  [record_view] is the host's own
    decoding, which the plugin cannot see into: the value read when a
    variable of the given type is laid over an address in the given
    object store, or [None] where the host will not define it.
    [isprintable] is [str.isprintable] on one code point, which [repr]
    asks about code points above U+007F. *)
Record BinaryView := {
  arch : option pystr;
  platform : option pystr;
  types : gmap pystr TypeObj;
  data_refs_for_type : gmap pystr (list Z);
  data_vars : gmap Z DataVariable;
  record_view : TypeObj -> gmap Z DataVariable -> Z -> option PyVal;
  code_refs : gmap Z (list Z);
  tag_types : list (pystr * pystr);
  tags : list Tag;
  calls : list HostCall;
  log : list (LogLevel * pystr);
  isprintable : N -> bool
}.

Definition with_types (t : gmap pystr TypeObj) (bv : BinaryView) : BinaryView :=
  {| arch := arch bv; platform := platform bv; types := t;
     data_refs_for_type := data_refs_for_type bv; data_vars := data_vars bv;
     record_view := record_view bv; code_refs := code_refs bv;
     tag_types := tag_types bv; tags := tags bv; calls := calls bv; log := log bv;
     isprintable := isprintable bv |}.

Definition with_data_vars (d : gmap Z DataVariable) (bv : BinaryView) : BinaryView :=
  {| arch := arch bv; platform := platform bv; types := types bv;
     data_refs_for_type := data_refs_for_type bv; data_vars := d;
     record_view := record_view bv; code_refs := code_refs bv;
     tag_types := tag_types bv; tags := tags bv; calls := calls bv; log := log bv;
     isprintable := isprintable bv |}.

Definition with_tag_types (t : list (pystr * pystr)) (bv : BinaryView) : BinaryView :=
  {| arch := arch bv; platform := platform bv; types := types bv;
     data_refs_for_type := data_refs_for_type bv; data_vars := data_vars bv;
     record_view := record_view bv; code_refs := code_refs bv;
     tag_types := t; tags := tags bv; calls := calls bv; log := log bv;
     isprintable := isprintable bv |}.

Definition with_tags (t : list Tag) (bv : BinaryView) : BinaryView :=
  {| arch := arch bv; platform := platform bv; types := types bv;
     data_refs_for_type := data_refs_for_type bv; data_vars := data_vars bv;
     record_view := record_view bv; code_refs := code_refs bv;
     tag_types := tag_types bv; tags := t; calls := calls bv; log := log bv;
     isprintable := isprintable bv |}.

Definition with_calls (c : list HostCall) (bv : BinaryView) : BinaryView :=
  {| arch := arch bv; platform := platform bv; types := types bv;
     data_refs_for_type := data_refs_for_type bv; data_vars := data_vars bv;
     record_view := record_view bv; code_refs := code_refs bv;
     tag_types := tag_types bv; tags := tags bv; calls := c; log := log bv;
     isprintable := isprintable bv |}.

Definition with_log (l : list (LogLevel * pystr)) (bv : BinaryView) : BinaryView :=
  {| arch := arch bv; platform := platform bv; types := types bv;
     data_refs_for_type := data_refs_for_type bv; data_vars := data_vars bv;
     record_view := record_view bv; code_refs := code_refs bv;
     tag_types := tag_types bv; tags := tags bv; calls := calls bv; log := l;
     isprintable := isprintable bv |}.

(** ** Running Python against the view

    A statement either returns a value or raises; both leave a view
    behind. *)

Inductive Outcome (A : Type) :=
| Returned (a : A) (bv : BinaryView)
| Raised (e : PyExc) (bv : BinaryView).

Arguments Returned {A} a bv.
Arguments Raised {A} e bv.

Definition Py (A : Type) : Type := BinaryView -> Outcome A.

Definition ret {A} (a : A) : Py A := fun bv => Returned a bv.

Definition raise {A} (e : PyExc) : Py A := fun bv => Raised e bv.

Definition bind {A B} (m : Py A) (k : A -> Py B) : Py B :=
  fun bv =>
    match m bv with
    | Returned a bv' => k a bv'
    | Raised e bv' => Raised e bv'
    end.

Notation "'let!' x ':=' m 'in' k" := (bind m (fun x => k))
  (at level 10, x pattern, m at level 100, k at level 200).

Notation "m '>>' k" := (bind m (fun _ => k))
  (at level 90, right associativity).

(** [for x in l: s = body(x, s)] *)
Fixpoint for_each {A S} (l : list A) (body : A -> S -> Py S) (s : S) : Py S :=
  match l with
  | [] => ret s
  | x :: l' => let! s' := body x s in for_each l' body s'
  end.

Definition final_view {A} (o : Outcome A) : BinaryView :=
  match o with
  | Returned _ bv => bv
  | Raised _ bv => bv
  end.

(** *** Operations on values and locals *)

(** [v.get(key)]: only a dictionary has the method. *)
Definition py_get (v : PyVal) (key : pystr) : Py PyVal :=
  match v with
  | VDict d => ret (default VNone (dict_lookup key d))
  | _ => raise AttributeError
  end.

(** [v[key]] with a text key *)
Definition py_subscript (v : PyVal) (key : pystr) : Py PyVal :=
  match v with
  | VDict d =>
      match dict_lookup key d with
      | Some x => ret x
      | None => raise KeyError
      end
  | _ => raise TypeError
  end.

(** [v.decode("utf-8")]: only [bytes] has the method. *)
Definition py_decode (v : PyVal) : Py pystr :=
  match v with
  | VBytes b =>
      match decode_utf8 b with
      | Some s => ret s
      | None => raise UnicodeDecodeError
      end
  | _ => raise AttributeError
  end.

(** Reading a local that may not have been assigned yet *)
Definition read_local {A} (x : option A) : Py A :=
  match x with
  | Some a => ret a
  | None => raise UnboundLocalError
  end.

(** [str(v)] as an f-string field [{v}] inserts it, written with the
    interpreter's character table *)
Definition format_field (v : PyVal) : Py pystr :=
  fun bv => Returned (Repr.str (isprintable bv) v) bv.

(** *** The [BinaryView] methods the plugin calls *)

Module Host.

Definition record_call (c : HostCall) (bv : BinaryView) : BinaryView :=
  with_calls (calls bv ++ [c]) bv.

Definition get_arch : Py (option pystr) := fun bv => Returned (arch bv) bv.

(** [bv.platform.name]; [bv.platform] may be [None]. *)
Definition platform_name : Py pystr :=
  fun bv =>
    match platform bv with
    | Some n => Returned n bv
    | None => Raised AttributeError bv
    end.

Definition get_type_by_name (name : pystr) : Py (option TypeObj) :=
  fun bv => Returned (types bv !! name) bv.

Definition define_user_type (name : pystr) (type_obj : TypeObj) : Py unit :=
  fun bv =>
    Returned tt (record_call (CallDefineUserType name type_obj)
                   (with_types (<[name := type_obj]> (types bv)) bv)).

(** A type string that is one back-quoted name *)
Definition unquote (s : pystr) : pystr :=
  match s with
  | c :: rest =>
      match reverse rest with
      | c' :: inner => if (c =? 96)%N && (c' =? 96)%N then reverse inner else s
      | [] => s
      end
  | [] => s
  end.

(** [bv.parse_type_string(s)] for the name of a type: it must be
    known to the view. *)
Definition parse_type_string (s : pystr) : Py TypeObj :=
  fun bv =>
    match types bv !! unquote s with
    | Some t => Returned t bv
    | None => Raised SyntaxError bv
    end.

(** [bv.define_user_data_var(addr, var_type, name)]: parses the type
    string and asks the view to define the variable.  Where the view
    defines it, the answer is the variable now at [addr]; where it
    will not ([record_view] has no value to give), the answer is
    [None] and the objects stay as they were. *)
Definition define_user_data_var (addr : Z) (var_type name : pystr)
  : Py (option DataVariable) :=
  let! t := parse_type_string var_type in
  fun bv =>
    let result :=
      (fun v => {| dv_address := addr; dv_name := Some name; dv_value := v |})
        <$> record_view bv t (data_vars bv) addr in
    let bv' :=
      match result with
      | Some dv => with_data_vars (<[addr := dv]> (data_vars bv)) bv
      | None => bv
      end in
    Returned result (record_call (CallDefineUserDataVar addr var_type name result) bv').

Definition get_data_refs_for_type (name : pystr) : Py (list Z) :=
  fun bv => Returned (default [] (data_refs_for_type bv !! name)) bv.

(** [bv.get_data_var_at(addr)]; the call takes an integer. *)
Definition get_data_var_at (addr : PyVal) : Py (option DataVariable) :=
  match addr with
  | VInt a => fun bv => Returned (data_vars bv !! a) bv
  | _ => raise ArgumentError
  end.

(** The addresses of [bv.get_code_refs(addr)] *)
Definition get_code_refs (addr : Z) : Py (list Z) :=
  fun bv => Returned (default [] (code_refs bv !! addr)) bv.

(** [bv.create_tag_type(name, icon)] adds a tag type each time. *)
Definition create_tag_type (name icon : pystr) : Py unit :=
  fun bv =>
    Returned tt (record_call (CallCreateTagType name icon)
                   (with_tag_types (tag_types bv ++ [(name, icon)]) bv)).

(** [bv.add_tag(addr, tag_type_name, data, user)] looks the tag type
    up by name and attaches a tag of that type. *)
Definition add_tag (addr : Z) (type_name data : pystr) (user : bool) : Py unit :=
  fun bv =>
    let bv' :=
      if bool_decide (type_name ∈ (tag_types bv).*1) then
        with_tags (tags bv ++ [{| tag_addr := addr; tag_type_name := type_name;
                                  tag_data := data; tag_user := user |}]) bv
      else bv in
    Returned tt (record_call (CallAddTag addr type_name data user) bv').

Definition begin_undo_actions : Py unit :=
  fun bv => Returned tt (record_call CallBeginUndoActions bv).

Definition commit_undo_actions : Py unit :=
  fun bv => Returned tt (record_call CallCommitUndoActions bv).

Definition update_analysis : Py unit :=
  fun bv => Returned tt (record_call CallUpdateAnalysis bv).

End Host.

Module Logger.

Definition log_info (msg : pystr) : Py unit :=
  fun bv => Returned tt (with_log (log bv ++ [(Info, msg)]) bv).

Definition log_error (msg : pystr) : Py unit :=
  fun bv => Returned tt (with_log (log bv ++ [(Error, msg)]) bv).

End Logger.

(** ** The plugin *)

Module CorePanicLocation.

Definition type_name : pystr := lit "core::panic::Location".

(** [StructureBuilder.create(packed=...)] and [builder.append(type, name)] *)
Definition StructureBuilder_create (packed : bool) : TypeObj := StructureType packed [].

Definition append (builder : TypeObj) (type : TypeObj) (name : pystr) : TypeObj :=
  match builder with
  | StructureType packed members => StructureType packed (members ++ [(name, type)])
  | _ => builder
  end.

(** [NamedTypeReferenceType.create_from_registered_type(bv, name)]: a
    reference by name, which does not look into the registry. *)
Definition create_from_registered_type (name : pystr) : TypeObj :=
  NamedTypeReferenceType name.

(** The packed structure the plugin builds: a [&str], then two
    four-byte integers. *)
Definition location_type : TypeObj :=
  StructureType true
    [ (lit "file", NamedTypeReferenceType (lit "&str"));
      (lit "line", IntegerType 4);
      (lit "col", IntegerType 4) ].

Definition check_binary_ninja_type_exists : Py bool :=
  let! t := Host.get_type_by_name type_name in
  ret (bool_decide (is_Some t)).

Definition create_binary_ninja_type : Py unit :=
  let! a := Host.get_arch in
  match a with
  | Some _ =>
      let rust_core_panic_location_bn_type_obj := StructureBuilder_create true in
      let rust_core_panic_location_bn_type_obj :=
        append rust_core_panic_location_bn_type_obj
          (create_from_registered_type (lit "&str")) (lit "file") in
      let rust_core_panic_location_bn_type_obj :=
        append rust_core_panic_location_bn_type_obj (IntegerType 4) (lit "line") in
      let rust_core_panic_location_bn_type_obj :=
        append rust_core_panic_location_bn_type_obj (IntegerType 4) (lit "col") in
      Host.define_user_type type_name rust_core_panic_location_bn_type_obj >>
      Logger.log_info (lit "Defined new type, `core::panic::Location`, for Rust panic metadata")
  | None => ret tt
  end.

(** The error message of the source is a plain string, not an
    f-string: its braces are logged as written. *)
Definition create_binary_ninja_instance (location : Z) (name : pystr)
  : Py (option DataVariable) :=
  let! data_variable :=
    Host.define_user_data_var location (lit "`core::panic::Location`") name in
  Logger.log_info (lit "Defined new `core::panic::Location` at " ++ hex_of_Z location) >>
  (match data_variable with
   | None =>
       Logger.log_error
         (lit "Unable to create `core::panic::Location` data variable at {location:#x}")
   | Some _ => ret tt
   end) >>
  ret data_variable.

End CorePanicLocation.

(** The path object built from [candidate_path] for the platform of
    the view (lines 112-115 of the source). *)
Definition path_for_platform (platform_name : pystr) (candidate_path : PathLike) : PurePath :=
  if contains (lit "windows") platform_name
  then new_path ntpath candidate_path
  else new_path posixpath candidate_path.

(** The test a candidate has to pass (lines 112-116). *)
Definition is_source_file_path (platform_name : pystr) (candidate_path : PathLike) : bool :=
  str_eqb (suffix (path_for_platform platform_name candidate_path)) (lit ".rs").

(** The locals of the scanning loop that live across iterations:
    [candidate_path], unassigned to begin with, and the result list. *)
Definition ScanState : Type := option PathLike * list DataVariable.

(** One iteration of the loop of
    [find_string_slice_variables_containing_source_file_path]. *)
Definition scan_ref (rust_string_slice_data_ref : Z) (st : ScanState) : Py ScanState :=
  let '(candidate_path, source_file_path_data_vars) := st in
  let! rust_string_slice_data := Host.get_data_var_at (VInt rust_string_slice_data_ref) in
  match rust_string_slice_data with
  | None => ret st
  | Some rust_string_slice_data =>
      let! string_address := py_get (dv_value rust_string_slice_data) (lit "_address") in
      match string_address with
      | VNone => ret st
      | _ =>
          let! string_data := Host.get_data_var_at string_address in
          match string_data with
          | None => ret st
          | Some string_data =>
              match dv_value string_data with
              | VNone => ret st
              | value =>
                  let! candidate_path :=
                    match value with
                    | VBytes _ => let! s := py_decode value in ret (Some (PText s))
                    | VStr s => ret (Some (PText s))
                    | _ => ret candidate_path
                    end in
                  let! platform_name := Host.platform_name in
                  let! arg := read_local candidate_path in
                  ret (Some (PPath (path_for_platform platform_name arg)),
                       if is_source_file_path platform_name arg
                       then source_file_path_data_vars ++ [rust_string_slice_data]
                       else source_file_path_data_vars)
              end
          end
      end
  end.

Definition find_string_slice_variables_containing_source_file_path : Py (list DataVariable) :=
  let! refs := Host.get_data_refs_for_type (lit "&str") in
  let! st := for_each refs scan_ref (None, []) in
  ret (snd st).

(** [f"panic_location_{v.name}"] *)
Definition panic_location_name (v : DataVariable) : pystr :=
  lit "panic_location_" ++
  match dv_name v with
  | Some n => n
  | None => lit "None"
  end.

Definition synthesize_one (source_file_path_data_variable : DataVariable)
    (panic_location_data_vars : list DataVariable) : Py (list DataVariable) :=
  let! panic_location_data_var :=
    CorePanicLocation.create_binary_ninja_instance
      (dv_address source_file_path_data_variable)
      (panic_location_name source_file_path_data_variable) in
  match panic_location_data_var with
  | Some v => ret (panic_location_data_vars ++ [v])
  | None => ret panic_location_data_vars
  end.

Definition set_panic_locations_from_source_file_path_string_variables
    (source_file_paths : list DataVariable) : Py (list DataVariable) :=
  let! registered := CorePanicLocation.check_binary_ninja_type_exists in
  if (registered : bool) then for_each source_file_paths synthesize_one []
  else ret [].

Definition tag_type_suffix : pystr := lit " - Rust Panic Location Source File Path".

Definition tag_icon : pystr := [0x1F631%N].

Definition tag_code_ref (tag_type_name panic_location_path : pystr)
    (panic_location_line panic_location_col : PyVal) (code_ref_address : Z) (_ : unit) : Py unit :=
  let! line := format_field panic_location_line in
  let! col := format_field panic_location_col in
  Host.add_tag code_ref_address tag_type_name
    (panic_location_path ++ lit ": line " ++ line ++ lit ", col " ++ col) true >>
  Logger.log_info (lit "Added tag " ++ panic_location_path ++ lit " at " ++ of_Z code_ref_address).

(** One iteration of the outer loop of
    [find_panic_location_code_refs_and_set_tags]. *)
Definition annotate_one (panic_location_data_variable : DataVariable) (_ : unit) : Py unit :=
  let! file := py_subscript (dv_value panic_location_data_variable) (lit "file") in
  let! panic_location_file_path_string_address := py_subscript file (lit "_address") in
  let! panic_location_file_path_string_data :=
    Host.get_data_var_at panic_location_file_path_string_address in
  match panic_location_file_path_string_data with
  | Some string_data =>
      let! panic_location_path := py_decode (dv_value string_data) in
      let! panic_location_line := py_subscript (dv_value panic_location_data_variable) (lit "line") in
      let! panic_location_col := py_subscript (dv_value panic_location_data_variable) (lit "col") in
      let panic_location_tag_type_name := panic_location_path ++ tag_type_suffix in
      Host.create_tag_type panic_location_tag_type_name tag_icon >>
      let! panic_location_code_refs := Host.get_code_refs (dv_address panic_location_data_variable) in
      for_each panic_location_code_refs
        (tag_code_ref panic_location_tag_type_name panic_location_path
           panic_location_line panic_location_col) tt
  | None => ret tt
  end.

Definition find_panic_location_code_refs_and_set_tags (panic_locations : list DataVariable)
  : Py unit :=
  for_each panic_locations annotate_one tt.

Definition main : Py unit :=
  CorePanicLocation.create_binary_ninja_type >>
  Host.begin_undo_actions >>
  let! source_file_paths := find_string_slice_variables_containing_source_file_path in
  let! panic_locations :=
    set_panic_locations_from_source_file_path_string_variables source_file_paths in
  find_panic_location_code_refs_and_set_tags panic_locations >>
  Host.commit_undo_actions >>
  Host.update_analysis.

(** ** A worked binary

    One [&str] at 0x1000 whose bytes, at 0x3000, spell
    [library/core/src/panic.rs]; laid over 0x1000, the record reads line
    42, column 9; one instruction, at 0x2000, refers to 0x1000. *)

Module Scenario.

Definition panic_rs : pystr := lit "library/core/src/panic.rs".

Definition str_slice_type : TypeObj :=
  StructureType false [ (lit "_address", IntegerType 8); (lit "length", IntegerType 8) ].

Definition slice_at_1000 : DataVariable :=
  {| dv_address := 0x1000; dv_name := Some (lit "data_1000");
     dv_value := VDict [ (lit "_address", VInt 0x3000); (lit "length", VInt 25) ] |}.

Definition bytes_at_3000 : DataVariable :=
  {| dv_address := 0x3000; dv_name := None;
     dv_value := VBytes (list_byte_of_string "library/core/src/panic.rs") |}.

(** The record's first field is the string view already there. *)
Definition view (t : TypeObj) (objs : gmap Z DataVariable) (a : Z) : option PyVal :=
  if bool_decide (a = 0x1000) then
    match objs !! a with
    | Some sv => Some (VDict [ (lit "file", dv_value sv);
                               (lit "line", VInt 42); (lit "col", VInt 9) ])
    | None => None
    end
  else None.

(** The character table of the worked binaries.  It is right as far
    as Latin-1, where every version of the Unicode database agrees:
    above U+007F, the code points up to U+00A0 and U+00AD are not
    printable.  Beyond U+00FF it answers [true] throughout, which is
    not so for every code point; the worked binaries hold none. *)
Definition latin1_printable (c : N) : bool :=
  negb ((c <=? 0xA0)%N || (c =? 0xAD)%N).

Definition bv : BinaryView :=
  {| arch := Some (lit "x86_64");
     platform := Some (lit "linux");
     types := {[ lit "&str" := str_slice_type ]};
     data_refs_for_type := {[ lit "&str" := [0x1000] ]};
     data_vars := {[ 0x1000 := slice_at_1000; 0x3000 := bytes_at_3000 ]};
     record_view := view;
     code_refs := {[ 0x1000 := [0x2000] ]};
     tag_types := [];
     tags := [];
     calls := [];
     log := [];
     isprintable := latin1_printable |}.

Definition record_at_1000 : DataVariable :=
  {| dv_address := 0x1000;
     dv_name := Some (lit "panic_location_data_1000");
     dv_value := VDict [ (lit "file", dv_value slice_at_1000);
                         (lit "line", VInt 42); (lit "col", VInt 9) ] |}.

End Scenario.

(** More binaries.  In [undecodable] the first of two string views
    points at bytes that are not UTF-8, the second at a good path; in
    [untyped_backing] the only string view points at a variable whose
    value is an integer. *)

Module Variants.

Definition slice_to (addr target : Z) : DataVariable :=
  {| dv_address := addr; dv_name := None;
     dv_value := VDict [ (lit "_address", VInt target); (lit "length", VInt 2) ] |}.

Definition bytes_var (addr : Z) (b : pybytes) : DataVariable :=
  {| dv_address := addr; dv_name := None; dv_value := VBytes b |}.

Definition undecodable : BinaryView :=
  {| arch := Some (lit "x86_64");
     platform := Some (lit "linux");
     types := {[ lit "&str" := Scenario.str_slice_type ]};
     data_refs_for_type := {[ lit "&str" := [0x1000; 0x1100] ]};
     data_vars := {[ 0x1000 := slice_to 0x1000 0x3000;
                     0x1100 := slice_to 0x1100 0x3100;
                     0x3000 := bytes_var 0x3000 [xff; xfe];
                     0x3100 := bytes_var 0x3100 (list_byte_of_string "src/main.rs") ]};
     record_view := Scenario.view;
     code_refs := ∅;
     tag_types := [];
     tags := [];
     calls := [];
     log := [];
     isprintable := Scenario.latin1_printable |}.

Definition untyped_backing : BinaryView :=
  {| arch := Some (lit "x86_64");
     platform := Some (lit "linux");
     types := {[ lit "&str" := Scenario.str_slice_type ]};
     data_refs_for_type := {[ lit "&str" := [0x1000] ]};
     data_vars := {[ 0x1000 := slice_to 0x1000 0x3000;
                     0x3000 := {| dv_address := 0x3000; dv_name := None; dv_value := VInt 7 |} ]};
     record_view := Scenario.view;
     code_refs := ∅;
     tag_types := [];
     tags := [];
     calls := [];
     log := [];
     isprintable := Scenario.latin1_printable |}.

(** The worked binary with one more string-view reference, at an
    address that holds no data object. *)
Definition dangling : BinaryView :=
  {| arch := arch Scenario.bv;
     platform := platform Scenario.bv;
     types := types Scenario.bv;
     data_refs_for_type := {[ lit "&str" := [0x0FF0; 0x1000] ]};
     data_vars := data_vars Scenario.bv;
     record_view := Scenario.view;
     code_refs := code_refs Scenario.bv;
     tag_types := [];
     tags := [];
     calls := [];
     log := [];
     isprintable := Scenario.latin1_printable |}.

(** A good path first, then a string view whose backing variable
    holds an integer. *)
Definition carried : BinaryView :=
  {| arch := Some (lit "x86_64");
     platform := Some (lit "linux");
     types := {[ lit "&str" := Scenario.str_slice_type ]};
     data_refs_for_type := {[ lit "&str" := [0x1000; 0x1100] ]};
     data_vars := {[ 0x1000 := slice_to 0x1000 0x3100;
                     0x1100 := slice_to 0x1100 0x3000;
                     0x3000 := {| dv_address := 0x3000; dv_name := None; dv_value := VInt 7 |};
                     0x3100 := bytes_var 0x3100 (list_byte_of_string "src/main.rs") ]};
     record_view := Scenario.view;
     code_refs := ∅;
     tag_types := [];
     tags := [];
     calls := [];
     log := [];
     isprintable := Scenario.latin1_printable |}.

(** [Scenario.bv] once the record type has been registered *)
Definition registered : BinaryView :=
  final_view (CorePanicLocation.create_binary_ninja_type Scenario.bv).

End Variants.

(** ** Vocabulary of the statements *)

(** Calls that create a type, a data object, a tag type or a tag *)
Definition is_mutation (c : HostCall) : bool :=
  match c with
  | CallDefineUserType _ _ | CallDefineUserDataVar _ _ _ _
  | CallCreateTagType _ _ | CallAddTag _ _ _ _ => true
  | _ => false
  end.

(** Calls that create a data object, a tag type or a tag *)
Definition is_object_or_tag_call (c : HostCall) : bool :=
  match c with
  | CallDefineUserDataVar _ _ _ _ | CallCreateTagType _ _ | CallAddTag _ _ _ _ => true
  | _ => false
  end.

Inductive Phase := BeforeBegin | InsideUndo | AfterCommit.

(** Every creating call of the trace lies after a
    [begin_undo_actions] and before the next [commit_undo_actions]. *)
Fixpoint mutations_bracketed (ph : Phase) (cs : list HostCall) : bool :=
  match cs with
  | [] => true
  | CallBeginUndoActions :: cs' => mutations_bracketed InsideUndo cs'
  | CallCommitUndoActions :: cs' => mutations_bracketed AfterCommit cs'
  | c :: cs' =>
      (negb (is_mutation c) || match ph with InsideUndo => true | _ => false end)
      && mutations_bracketed ph cs'
  end.

(** The call [create_binary_ninja_type] makes on a view *)
Definition registration_calls (bv : BinaryView) : list HostCall :=
  match arch bv with
  | Some _ => [CallDefineUserType CorePanicLocation.type_name CorePanicLocation.location_type]
  | None => []
  end.

(** How [main] closes its trace: by committing when it returns, with
    nothing when it raises. *)
Definition closing_calls {A} (o : Outcome A) : list HostCall :=
  match o with
  | Returned _ _ => [CallCommitUndoActions; CallUpdateAnalysis]
  | Raised _ _ => []
  end.

Definition raises {A} (o : Outcome A) (e : PyExc) : Prop :=
  match o with
  | Raised e' _ => e' = e
  | Returned _ _ => False
  end.

(** What the host answered to a definition request *)
Definition call_result (c : HostCall) : option DataVariable :=
  match c with
  | CallDefineUserDataVar _ _ _ r => r
  | _ => None
  end.

(** The definition request the synthesizer makes for a candidate: at
    the candidate's address, under the name derived from its name; a
    variable the host answers with sits at that address. *)
Definition requests (candidate : DataVariable) (c : HostCall) : Prop :=
  exists result,
    c = CallDefineUserDataVar (dv_address candidate) (lit "`core::panic::Location`")
          (panic_location_name candidate) result
    /\ forall v, result = Some v -> dv_address v = dv_address candidate.

(** How many types the registry holds under a name *)
Definition registered_count (name : pystr) (bv : BinaryView) : nat :=
  length (List.filter (fun kv => str_eqb (fst kv) name) (map_to_list (types bv))).

(** A string-view reference one of whose resolution steps comes back
    absent: there is no data object at it; or the value there is a
    dictionary that has no [_address] member, or [None] under it; or
    the address leads to no data object, or to one without a value.
    A data object whose value is not a dictionary is not among these
    (see [Corners.valueless_first]). *)
Inductive unresolved (bv : BinaryView) (ref : Z) : Prop :=
| no_data_object :
    data_vars bv !! ref = None -> unresolved bv ref
| no_back_reference slice d :
    data_vars bv !! ref = Some slice ->
    dv_value slice = VDict d ->
    default VNone (dict_lookup (lit "_address") d) = VNone ->
    unresolved bv ref
| no_backing_object slice d a :
    data_vars bv !! ref = Some slice ->
    dv_value slice = VDict d ->
    dict_lookup (lit "_address") d = Some (VInt a) ->
    data_vars bv !! a = None ->
    unresolved bv ref
| no_backing_value slice d a backing :
    data_vars bv !! ref = Some slice ->
    dv_value slice = VDict d ->
    dict_lookup (lit "_address") d = Some (VInt a) ->
    data_vars bv !! a = Some backing ->
    dv_value backing = VNone ->
    unresolved bv ref.

(** A string-view reference that resolves all the way to a backing
    variable holding [value]. *)
Definition backed_by (bv : BinaryView) (ref : Z) (slice : DataVariable) (value : PyVal) : Prop :=
  exists d a backing,
    data_vars bv !! ref = Some slice /\
    dv_value slice = VDict d /\
    dict_lookup (lit "_address") d = Some (VInt a) /\
    data_vars bv !! a = Some backing /\
    dv_value backing = value.

(** The text an entry binds [candidate_path] to *)
Definition entry_text (bv : BinaryView) (ref : Z) (s : pystr) : Prop :=
  exists slice value,
    backed_by bv ref slice value /\
    (value = VStr s \/ exists b, value = VBytes b /\ decode_utf8 b = Some s).

(** A value that is neither [None], nor bytes, nor text *)
Definition neither_bytes_nor_text (v : PyVal) : Prop :=
  match v with
  | VInt _ | VDict _ => True
  | VNone | VBytes _ | VStr _ => False
  end.

(** A record whose [file] field points at an address with no data
    object *)
Definition file_unresolved (bv : BinaryView) (record : DataVariable) : Prop :=
  exists d file a,
    dv_value record = VDict d /\
    dict_lookup (lit "file") d = Some (VDict file) /\
    dict_lookup (lit "_address") file = Some (VInt a) /\
    data_vars bv !! a = None.

(** ** Vocabulary of the proofs *)

(** [preserves f m]: running [m] does not change the part [f] of the
    view, whether it returns or raises. *)
Definition preserves {A X} (f : BinaryView -> X) (m : Py A) : Prop :=
  forall bv, f (final_view (m bv)) = f bv.

(** [emits P m]: whatever [m] does, it appends to the trace of host
    calls, and only calls that satisfy [P]. *)
Definition emits {A} (P : HostCall -> bool) (m : Py A) : Prop :=
  forall bv, exists cs,
    calls (final_view (m bv)) = calls bv ++ cs /\ forallb P cs = true.

(** The view once [main] has tried to register the type and opened
    the undo bracket; neither step can raise. *)
Definition opened (bv : BinaryView) : BinaryView :=
  final_view (Host.begin_undo_actions
                (final_view (CorePanicLocation.create_binary_ninja_type bv))).

(** The same outcome, seen from another view *)
Definition retarget {A} (bv : BinaryView) (o : Outcome A) : Outcome A :=
  match o with
  | Returned a _ => Returned a bv
  | Raised e _ => Raised e bv
  end.

(** What lines 112-117 do with the value of [candidate_path] *)
Definition classified (bv : BinaryView) (candidate_path : option PathLike)
    (acc : list DataVariable) (slice : DataVariable) : Outcome ScanState :=
  match platform bv with
  | None => Raised AttributeError bv
  | Some p =>
      match candidate_path with
      | None => Raised UnboundLocalError bv
      | Some arg =>
          Returned (Some (PPath (path_for_platform p arg)),
                    if is_source_file_path p arg then acc ++ [slice] else acc) bv
      end
  end.

(** One iteration of the scan, with its sequencing worked out *)
Definition scan_ref_outcome (bv : BinaryView) (ref : Z) (cp : option PathLike)
    (acc : list DataVariable) : Outcome ScanState :=
  match data_vars bv !! ref with
  | None => Returned (cp, acc) bv
  | Some slice =>
      match dv_value slice with
      | VDict d =>
          match default VNone (dict_lookup (lit "_address") d) with
          | VNone => Returned (cp, acc) bv
          | VInt a =>
              match data_vars bv !! a with
              | None => Returned (cp, acc) bv
              | Some backing =>
                  match dv_value backing with
                  | VNone => Returned (cp, acc) bv
                  | VBytes b =>
                      match decode_utf8 b with
                      | Some s => classified bv (Some (PText s)) acc slice
                      | None => Raised UnicodeDecodeError bv
                      end
                  | VStr s => classified bv (Some (PText s)) acc slice
                  | VInt _ | VDict _ => classified bv cp acc slice
                  end
              end
          | _ => Raised ArgumentError bv
          end
      | _ => Raised AttributeError bv
      end
  end.

(** Where the value of [candidate_path] comes from: the text of an
    entry scanned earlier. *)
Definition from_entry (bv : BinaryView) (p : pystr) (refs : list Z) (c : PathLike) : Prop :=
  exists r0 s, r0 ∈ refs /\ entry_text bv r0 s /\ c = PPath (path_for_platform p (PText s)).

Definition returned_value {A} (o : Outcome A) : option A :=
  match o with
  | Returned a _ => Some a
  | Raised _ _ => None
  end.

(** The tag the annotator puts on a code reference *)
Definition panic_tag (printable : N -> bool) (path : pystr) (line col : PyVal) (addr : Z)
  : Tag :=
  {| tag_addr := addr;
     tag_type_name := path ++ tag_type_suffix;
     tag_data := path ++ lit ": line " ++ Repr.str printable line
                   ++ lit ", col " ++ Repr.str printable col;
     tag_user := true |}.

(** ** Corner cases of the worked binary *)

Module Corners.

Definition x86_64 : option pystr := Some (lit "x86_64").

Definition linux : option pystr := Some (lit "linux").

(** A view with the [&str] type registered, no tags and an empty
    trace. *)
Definition make (a p : option pystr) (refs : list Z) (vars : gmap Z DataVariable)
    (view : TypeObj -> gmap Z DataVariable -> Z -> option PyVal)
    (crefs : gmap Z (list Z)) : BinaryView :=
  {| arch := a;
     platform := p;
     types := {[ lit "&str" := Scenario.str_slice_type ]};
     data_refs_for_type := {[ lit "&str" := refs ]};
     data_vars := vars;
     record_view := view;
     code_refs := crefs;
     tag_types := [];
     tags := [];
     calls := [];
     log := [];
     isprintable := Scenario.latin1_printable |}.

(** No platform *)
Definition no_platform : BinaryView :=
  make x86_64 None [0x1000] (data_vars Scenario.bv) Scenario.view (code_refs Scenario.bv).

(** No architecture *)
Definition no_arch : BinaryView :=
  make None linux [0x1000] (data_vars Scenario.bv) Scenario.view (code_refs Scenario.bv).

(** No string-view reference *)
Definition no_refs : BinaryView :=
  make x86_64 linux [] (data_vars Scenario.bv) Scenario.view (code_refs Scenario.bv).

(** The variable at the reference has no value. *)
Definition valueless_slice : BinaryView :=
  make x86_64 linux [0x1000]
    {[ 0x1000 := {| dv_address := 0x1000; dv_name := None; dv_value := VNone |} ]}
    Scenario.view ∅.

(** The worked binary with one more string view ahead of the good
    one, at 0x0FF0, whose variable has no value. *)
Definition valueless_first : BinaryView :=
  make x86_64 linux [0x0FF0; 0x1000]
    (<[ 0x0FF0 := {| dv_address := 0x0FF0; dv_name := None; dv_value := VNone |} ]>
       (data_vars Scenario.bv))
    Scenario.view (code_refs Scenario.bv).

(** The backing variable holds text, not bytes. *)
Definition text_at_3000 : DataVariable :=
  {| dv_address := 0x3000; dv_name := None; dv_value := VStr (lit "src/lib.rs") |}.

Definition text_backing : BinaryView :=
  make x86_64 linux [0x1000]
    {[ 0x1000 := Scenario.slice_at_1000; 0x3000 := text_at_3000 ]}
    Scenario.view (code_refs Scenario.bv).

(** The host refuses every definition. *)
Definition refusing : BinaryView :=
  make x86_64 linux [0x1000] (data_vars Scenario.bv) (fun _ _ _ => None)
    (code_refs Scenario.bv).

(** A record that reads no [col] member *)
Definition record_without_col : DataVariable :=
  {| dv_address := 0x1000; dv_name := None;
     dv_value := VDict [ (lit "file", dv_value Scenario.slice_at_1000);
                         (lit "line", VInt 42) ] |}.

(** A record whose [line] member reads as a structure holding the
    control character U+0080 *)
Definition record_with_control_character : DataVariable :=
  {| dv_address := 0x1000; dv_name := None;
     dv_value := VDict [ (lit "file", dv_value Scenario.slice_at_1000);
                         (lit "line", VDict [ (lit "k", VStr [0x80%N]) ]);
                         (lit "col", VInt 9) ] |}.

End Corners.

(** ** Vocabulary of the further properties *)




(** [grows f P m]: whatever [m] does, it only appends to the list [f]
    of the view, and only elements that satisfy [P]. *)
Definition grows {A X} (f : BinaryView -> list X) (P : X -> Prop) (m : Py A) : Prop :=
  forall bv, exists new, f (final_view (m bv)) = f bv ++ new /\ Forall P new.

(** A tag as the annotator writes them: a user tag whose type name is
    a path followed by the fixed suffix and whose text begins with that
    path, followed by the line and column as [str] writes them with the
    character table [printable]. *)
Definition well_formed_tag (printable : N -> bool) (t : Tag) : Prop :=
  tag_user t = true
  /\ exists path line col,
       tag_type_name t = path ++ tag_type_suffix
       /\ tag_data t = path ++ lit ": line " ++ Repr.str printable line
                         ++ lit ", col " ++ Repr.str printable col.

(** A tag type as the annotator creates them *)
Definition well_formed_tag_type (t : pystr * pystr) : Prop :=
  snd t = tag_icon /\ exists path, fst t = path ++ tag_type_suffix.

(** ** Checks of the text, path and value models *)

Local Open Scope N_scope.

Example lit_rs : lit ".rs" = [46; 114; 115].
Proof. reflexivity. Qed.

Example decode_ascii : decode_utf8 (list_byte_of_string "a.rs") = Some (lit "a.rs").
Proof. reflexivity. Qed.

Example decode_two_byte : decode_utf8 [xc3; xa9] = Some [0xE9].
Proof. reflexivity. Qed.

Example decode_four_byte : decode_utf8 [xf0; x9f; x98; xb1] = Some [0x1F631].
Proof. reflexivity. Qed.

Example decode_three_byte : decode_utf8 [xe2; x82; xac] = Some [0x20AC].
Proof. reflexivity. Qed.

Example decode_beyond_unicode : decode_utf8 [xf4; x90; x80; x80] = None.
Proof. reflexivity. Qed.

Example decode_lone_ff : decode_utf8 [xff] = None.
Proof. reflexivity. Qed.

Example decode_overlong : decode_utf8 [xc0; xaf] = None.
Proof. reflexivity. Qed.

Example decode_surrogate : decode_utf8 [xed; xa0; x80] = None.
Proof. reflexivity. Qed.

Example decode_truncated : decode_utf8 [xe2; x82] = None.
Proof. reflexivity. Qed.

Example hex_4096 : hex_of_Z 4096 = lit "0x1000".
Proof. reflexivity. Qed.

Example split_example : split 47 (lit "a//b") = [lit "a"; []; lit "b"].
Proof. reflexivity. Qed.

Example suffix_posix : suffix (new_path posixpath (PText (lit "src/main.rs"))) = lit ".rs".
Proof. reflexivity. Qed.

Example suffix_hidden : suffix (new_path posixpath (PText (lit "src/.rs"))) = [].
Proof. reflexivity. Qed.

Example suffix_trailing_dot : suffix (new_path posixpath (PText (lit "src/main.rs."))) = [].
Proof. reflexivity. Qed.

Example suffix_trailing_slash : suffix (new_path posixpath (PText (lit "src/main.rs/"))) = lit ".rs".
Proof. reflexivity. Qed.

Example suffix_backslash_posix :
  name (new_path posixpath (PText (lit "C:\proj\lib.rs"))) = lit "C:\proj\lib.rs".
Proof. reflexivity. Qed.

Example name_windows : name (new_path ntpath (PText (lit "C:\proj\lib.rs"))) = lit "lib.rs".
Proof. reflexivity. Qed.

Example name_windows_drive_only : name (new_path ntpath (PText (lit "C:.rs"))) = lit ".rs".
Proof. reflexivity. Qed.

Example name_unc_share : name (new_path ntpath (PText (lit "\\server\share.rs"))) = [].
Proof. reflexivity. Qed.

Example name_unc_file : name (new_path ntpath (PText (lit "\\server\share\x.rs"))) = lit "x.rs".
Proof. reflexivity. Qed.

Example str_int (printable : N -> bool) : Repr.str printable (VInt 42) = lit "42".
Proof. reflexivity. Qed.

Example str_bytes (printable : N -> bool) :
  Repr.str printable (VBytes (list_byte_of_string "a'b")) = [98; 34; 97; 39; 98; 34].
Proof. reflexivity. Qed.

Example str_bytes_high (printable : N -> bool) :
  Repr.str printable (VBytes [x80; xe9]) = lit "b'\x80\xe9'".
Proof. reflexivity. Qed.

Example str_dict (printable : N -> bool) :
  Repr.str printable (VDict [(lit "_address", VInt 12288); (lit "length", VInt 25)])
  = lit "{'_address': 12288, 'length': 25}".
Proof. reflexivity. Qed.

Example str_text_is_itself (printable : N -> bool) :
  Repr.str printable (VStr [0x80; 0x2028]) = [0x80; 0x2028].
Proof. reflexivity. Qed.

Example str_dict_control :
  Repr.str Scenario.latin1_printable (VDict [(lit "k", VStr [0x80])]) = lit "{'k': '\x80'}".
Proof. reflexivity. Qed.

Example str_dict_no_break_space :
  Repr.str Scenario.latin1_printable (VDict [([0xA0], VInt 1)]) = lit "{'\xa0': 1}".
Proof. reflexivity. Qed.

Example str_dict_letter :
  Repr.str Scenario.latin1_printable (VDict [(lit "k", VStr [0xE9])])
  = lit "{'k': '" ++ [0xE9] ++ lit "'}".
Proof. reflexivity. Qed.

Example repr_beyond_latin1 (printable : N -> bool) :
  printable 0x2028 = false -> printable 0xE0001 = false ->
  Repr.repr printable (VStr [0x2028; 0xE0001]) = lit "'\u2028\U000e0001'".
Proof.
  intros H1 H2. unfold Repr.repr, Repr.str_repr, Repr.escape. cbn [map concat].
  rewrite H1, H2. reflexivity.
Qed.

Local Open Scope Z_scope.

(** ** Loops, and what a statement leaves alone *)

Lemma for_each_app {A S} (l1 l2 : list A) (body : A -> S -> Py S) (s : S) (bv : BinaryView) :
  for_each (l1 ++ l2) body s bv
  = (let! s' := for_each l1 body s in for_each l2 body s') bv.
Proof.
  revert s bv. induction l1 as [|x l1 IH]; intros s bv; simpl.
  - reflexivity.
  - unfold bind in *. destruct (body x s bv) as [s' bv'|e bv'].
    + apply IH.
    + reflexivity.
Qed.

Lemma preserves_ret {A X} (f : BinaryView -> X) (a : A) : preserves f (ret a).
Proof. intros bv. reflexivity. Qed.

Lemma preserves_raise {A X} (f : BinaryView -> X) (e : PyExc) : preserves f (@raise A e).
Proof. intros bv. reflexivity. Qed.

Lemma preserves_bind {A B X} (f : BinaryView -> X) (m : Py A) (k : A -> Py B) :
  preserves f m -> (forall a, preserves f (k a)) -> preserves f (bind m k).
Proof.
  intros Hm Hk bv. unfold bind. specialize (Hm bv).
  destruct (m bv) as [a bv'|e bv']; simpl in Hm.
  - rewrite Hk. exact Hm.
  - exact Hm.
Qed.

Lemma preserves_for_each {A S X} (f : BinaryView -> X) (l : list A) (body : A -> S -> Py S) :
  (forall x s, preserves f (body x s)) -> forall s, preserves f (for_each l body s).
Proof.
  intros Hbody. induction l as [|x l IH]; intros s; simpl.
  - apply preserves_ret.
  - apply preserves_bind; [apply Hbody | exact IH].
Qed.

Lemma preserves_match_option {A B X} (f : BinaryView -> X) (o : option A)
    (some : A -> Py B) (none : Py B) :
  (forall a, preserves f (some a)) -> preserves f none ->
  preserves f (match o with Some a => some a | None => none end).
Proof. intros Hs Hn. destruct o; auto. Qed.

Create HintDb preserve.

#[local] Hint Resolve preserves_ret preserves_raise preserves_bind preserves_for_each
  preserves_match_option : preserve.

Lemma preserves_py_get {X} (f : BinaryView -> X) v key : preserves f (py_get v key).
Proof. destruct v; simpl; auto with preserve. Qed.

Lemma preserves_py_subscript {X} (f : BinaryView -> X) v key : preserves f (py_subscript v key).
Proof. destruct v; simpl; auto with preserve. Qed.

Lemma preserves_py_decode {X} (f : BinaryView -> X) v : preserves f (py_decode v).
Proof. destruct v; simpl; auto with preserve. Qed.

Lemma preserves_read_local {A X} (f : BinaryView -> X) (x : option A) :
  preserves f (read_local x).
Proof. destruct x; simpl; auto with preserve. Qed.

Lemma preserves_get_data_var_at {X} (f : BinaryView -> X) addr :
  preserves f (Host.get_data_var_at addr).
Proof. destruct addr; simpl; auto with preserve; intros bv; reflexivity. Qed.

Lemma preserves_platform_name {X} (f : BinaryView -> X) : preserves f Host.platform_name.
Proof. intros bv. unfold Host.platform_name. destruct (platform bv); reflexivity. Qed.

Lemma preserves_get_code_refs {X} (f : BinaryView -> X) addr :
  preserves f (Host.get_code_refs addr).
Proof. intros bv. reflexivity. Qed.

Lemma preserves_get_data_refs_for_type {X} (f : BinaryView -> X) name :
  preserves f (Host.get_data_refs_for_type name).
Proof. intros bv. reflexivity. Qed.

Lemma preserves_format_field {X} (f : BinaryView -> X) v : preserves f (format_field v).
Proof. intros bv. reflexivity. Qed.

#[local] Hint Resolve preserves_py_get preserves_py_subscript preserves_py_decode
  preserves_read_local preserves_get_data_var_at preserves_platform_name
  preserves_get_code_refs preserves_get_data_refs_for_type preserves_format_field : preserve.

(** The scan only reads: every iteration leaves the whole view as it
    found it. *)
Lemma scan_ref_reads_only ref st : preserves id (scan_ref ref st).
Proof.
  destruct st as [candidate_path acc]. unfold scan_ref.
  apply preserves_bind; [auto with preserve|]. intros [slice|]; [|auto with preserve].
  apply preserves_bind; [auto with preserve|]. intros address.
  assert (Hrest : preserves id
    (let! string_data := Host.get_data_var_at address in
     match string_data with
     | None => ret (candidate_path, acc)
     | Some string_data =>
         match dv_value string_data with
         | VNone => ret (candidate_path, acc)
         | value =>
             let! candidate_path :=
               match value with
               | VBytes _ => let! s := py_decode value in ret (Some (PText s))
               | VStr s => ret (Some (PText s))
               | _ => ret candidate_path
               end in
             let! platform_name := Host.platform_name in
             let! arg := read_local candidate_path in
             ret (Some (PPath (path_for_platform platform_name arg)),
                  if is_source_file_path platform_name arg then acc ++ [slice] else acc)
         end
     end)).
  { apply preserves_bind; [auto with preserve|]. intros [backing|]; [|auto with preserve].
    destruct (dv_value backing); auto 10 with preserve. }
  destruct address; auto with preserve.
Qed.

Lemma scan_reads_only refs st : preserves id (for_each refs scan_ref st).
Proof. apply preserves_for_each. intros. apply scan_ref_reads_only. Qed.

Lemma scan_returned refs st st' bv bv' :
  for_each refs scan_ref st bv = Returned st' bv' -> bv' = bv.
Proof. intros H. pose proof (scan_reads_only refs st bv) as Hp. rewrite H in Hp. exact Hp. Qed.

Lemma scan_raised refs st e bv bv' :
  for_each refs scan_ref st bv = Raised e bv' -> bv' = bv.
Proof. intros H. pose proof (scan_reads_only refs st bv) as Hp. rewrite H in Hp. exact Hp. Qed.

Lemma find_reads_only : preserves id find_string_slice_variables_containing_source_file_path.
Proof.
  unfold find_string_slice_variables_containing_source_file_path.
  apply preserves_bind; [auto with preserve|]. intros refs.
  apply preserves_bind; [apply scan_reads_only|]. auto with preserve.
Qed.

(** ** What a statement adds to the trace *)

Lemma emits_silent {A} (P : HostCall -> bool) (m : Py A) : preserves calls m -> emits P m.
Proof. intros H bv. exists []. rewrite H, app_nil_r. auto. Qed.

Lemma emits_bind {A B} (P : HostCall -> bool) (m : Py A) (k : A -> Py B) :
  emits P m -> (forall a, emits P (k a)) -> emits P (bind m k).
Proof.
  intros Hm Hk bv. unfold bind. destruct (Hm bv) as (cs & Hcs & HP).
  destruct (m bv) as [a bv'|e bv']; simpl in Hcs.
  - destruct (Hk a bv') as (cs' & Hcs' & HP'). exists (cs ++ cs').
    rewrite Hcs', Hcs, forallb_app, HP, HP', <- app_assoc. auto.
  - exists cs. auto.
Qed.

Lemma emits_for_each {A S} (P : HostCall -> bool) (l : list A) (body : A -> S -> Py S) :
  (forall x s, emits P (body x s)) -> forall s, emits P (for_each l body s).
Proof.
  intros Hbody. induction l as [|x l IH]; intros s; simpl.
  - apply emits_silent, preserves_ret.
  - apply emits_bind; [apply Hbody | exact IH].
Qed.

Lemma emits_record (P : HostCall -> bool) (c : HostCall) (update : BinaryView -> BinaryView) :
  P c = true -> (forall bv, calls (update bv) = calls bv) ->
  emits P (fun bv => Returned tt (Host.record_call c (update bv))).
Proof. intros HP Hu bv. exists [c]. simpl. rewrite Hu, HP. auto. Qed.

Lemma emits_create_tag_type name icon :
  emits is_object_or_tag_call (Host.create_tag_type name icon).
Proof. apply (emits_record _ _ (fun bv => with_tag_types _ bv)); reflexivity. Qed.

Lemma emits_add_tag addr type_name data user :
  emits is_object_or_tag_call (Host.add_tag addr type_name data user).
Proof.
  intros bv. exists [CallAddTag addr type_name data user]. unfold Host.add_tag. simpl.
  destruct (bool_decide _); auto.
Qed.

Lemma emits_define_user_data_var addr var_type name :
  emits is_object_or_tag_call (Host.define_user_data_var addr var_type name).
Proof.
  intros bv. unfold Host.define_user_data_var, bind, Host.parse_type_string.
  destruct (types bv !! Host.unquote var_type) as [t|]; simpl.
  - destruct (record_view bv t (data_vars bv) addr); simpl; eexists [_]; split; reflexivity.
  - exists []. rewrite app_nil_r. auto.
Qed.

Lemma preserves_log_info {X} (f : BinaryView -> X) msg :
  (forall l bv, f (with_log l bv) = f bv) -> preserves f (Logger.log_info msg).
Proof. intros H bv. apply H. Qed.

Lemma preserves_log_error {X} (f : BinaryView -> X) msg :
  (forall l bv, f (with_log l bv) = f bv) -> preserves f (Logger.log_error msg).
Proof. intros H bv. apply H. Qed.

Lemma emits_create_instance location name :
  emits is_object_or_tag_call (CorePanicLocation.create_binary_ninja_instance location name).
Proof.
  unfold CorePanicLocation.create_binary_ninja_instance.
  apply emits_bind; [apply emits_define_user_data_var|]. intros r.
  apply emits_bind; [apply emits_silent, preserves_log_info; reflexivity|]. intros _.
  apply emits_bind; [|intros _; apply emits_silent, preserves_ret].
  destruct r; apply emits_silent; [apply preserves_ret | apply preserves_log_error; reflexivity].
Qed.

Lemma emits_synthesize candidates :
  emits is_object_or_tag_call
    (set_panic_locations_from_source_file_path_string_variables candidates).
Proof.
  unfold set_panic_locations_from_source_file_path_string_variables.
  apply emits_bind.
  { apply emits_silent. intros bv. reflexivity. }
  intros [|]; [|apply emits_silent, preserves_ret].
  apply emits_for_each. intros c acc. unfold synthesize_one.
  apply emits_bind; [apply emits_create_instance|].
  intros [v|]; apply emits_silent, preserves_ret.
Qed.

Lemma emits_annotate_one record u : emits is_object_or_tag_call (annotate_one record u).
Proof.
  unfold annotate_one.
  apply emits_bind; [apply emits_silent; auto with preserve|]. intros file.
  apply emits_bind; [apply emits_silent; auto with preserve|]. intros address.
  apply emits_bind; [apply emits_silent; auto with preserve|].
  intros [string_data|]; [|apply emits_silent, preserves_ret].
  apply emits_bind; [apply emits_silent; auto with preserve|]. intros path.
  apply emits_bind; [apply emits_silent; auto with preserve|]. intros line.
  apply emits_bind; [apply emits_silent; auto with preserve|]. intros col.
  apply emits_bind; [apply emits_create_tag_type|]. intros _.
  apply emits_bind; [apply emits_silent; auto with preserve|]. intros refs.
  apply emits_for_each. intros r []. unfold tag_code_ref.
  apply emits_bind; [apply emits_silent; auto with preserve|]. intros line_text.
  apply emits_bind; [apply emits_silent; auto with preserve|]. intros col_text.
  apply emits_bind; [apply emits_add_tag|]. intros _.
  apply emits_silent, preserves_log_info. reflexivity.
Qed.

Lemma emits_annotate records :
  emits is_object_or_tag_call (find_panic_location_code_refs_and_set_tags records).
Proof. apply emits_for_each. intros. apply emits_annotate_one. Qed.

(** *** The opening of [main] *)

Lemma create_type_returns bv :
  CorePanicLocation.create_binary_ninja_type bv
  = Returned tt (final_view (CorePanicLocation.create_binary_ninja_type bv)).
Proof.
  unfold CorePanicLocation.create_binary_ninja_type, bind, Host.get_arch.
  destruct (arch bv); reflexivity.
Qed.

Lemma main_opened bv :
  main bv
  = (let! source_file_paths := find_string_slice_variables_containing_source_file_path in
     let! panic_locations :=
       set_panic_locations_from_source_file_path_string_variables source_file_paths in
     find_panic_location_code_refs_and_set_tags panic_locations >>
     Host.commit_undo_actions >>
     Host.update_analysis) (opened bv).
Proof.
  unfold main, opened. unfold bind at 1. rewrite create_type_returns. reflexivity.
Qed.

Lemma calls_opened bv :
  calls (opened bv) = calls bv ++ registration_calls bv ++ [CallBeginUndoActions].
Proof.
  unfold opened, registration_calls, CorePanicLocation.create_binary_ninja_type, bind,
    Host.get_arch.
  destruct (arch bv); simpl; rewrite <- ?app_assoc; reflexivity.
Qed.

Lemma data_vars_opened bv : data_vars (opened bv) = data_vars bv.
Proof.
  unfold opened, CorePanicLocation.create_binary_ninja_type, bind, Host.get_arch.
  destruct (arch bv); reflexivity.
Qed.

Lemma platform_opened bv : platform (opened bv) = platform bv.
Proof.
  unfold opened, CorePanicLocation.create_binary_ninja_type, bind, Host.get_arch.
  destruct (arch bv); reflexivity.
Qed.

Lemma data_refs_opened bv : data_refs_for_type (opened bv) = data_refs_for_type bv.
Proof.
  unfold opened, CorePanicLocation.create_binary_ninja_type, bind, Host.get_arch.
  destruct (arch bv); reflexivity.
Qed.

(** The shape of every trace of [main]: the registration, if any,
    then [begin_undo_actions], then calls that create data objects,
    tag types and tags, then the closing calls. *)
Lemma main_trace bv :
  exists body,
    calls (final_view (main bv))
    = calls bv ++ registration_calls bv ++ [CallBeginUndoActions] ++ body
        ++ closing_calls (main bv)
    /\ forallb is_object_or_tag_call body = true.
Proof.
  rewrite main_opened. unfold bind.
  pose proof (find_reads_only (opened bv)) as Hfind.
  destruct (find_string_slice_variables_containing_source_file_path (opened bv))
    as [srcs bv1|e bv1]; cbn [final_view id] in Hfind; subst bv1.
  2:{ exists []. cbn [final_view closing_calls forallb]. rewrite calls_opened, app_nil_r. auto. }
  destruct (emits_synthesize srcs (opened bv)) as (cs1 & Hcs1 & HP1).
  destruct (set_panic_locations_from_source_file_path_string_variables srcs (opened bv))
    as [locs bv2|e bv2]; cbn [final_view] in Hcs1.
  2:{ exists cs1. cbn [final_view closing_calls]. rewrite Hcs1, calls_opened, app_nil_r, <- !app_assoc. auto. }
  destruct (emits_annotate locs bv2) as (cs2 & Hcs2 & HP2).
  destruct (find_panic_location_code_refs_and_set_tags locs bv2) as [[] bv3|e bv3];
    cbn [final_view] in Hcs2.
  2:{ exists (cs1 ++ cs2). cbn [final_view closing_calls bind Host.commit_undo_actions Host.update_analysis].
      rewrite Hcs2, Hcs1, calls_opened, app_nil_r, forallb_app, HP1, HP2, <- !app_assoc.
      auto. }
  exists (cs1 ++ cs2). cbn -[opened registration_calls].
  rewrite Hcs2, Hcs1, calls_opened, forallb_app, HP1, HP2, <- !app_assoc. auto.
Qed.

Lemma bracketed_inside body closing :
  forallb is_object_or_tag_call body = true ->
  forallb (fun c => negb (is_mutation c)) closing = true ->
  mutations_bracketed BeforeBegin (CallBeginUndoActions :: body ++ closing) = true.
Proof.
  intros Hbody Hclosing. simpl.
  induction body as [|c body IH]; simpl in *.
  - clear Hbody. revert Hclosing. generalize InsideUndo.
    induction closing as [|c closing IH]; intros ph H; simpl in *; [reflexivity|].
    apply andb_true_iff in H as [Hc H].
    destruct c; simpl in *; try discriminate; rewrite ?orb_true_r; auto.
  - apply andb_true_iff in Hbody as [Hc Hbody].
    destruct c; simpl in *; try discriminate; auto.
Qed.

(** ** Transaction bracket (C1) *)

(** C1, as stated, fails on the worked binary: the first call of the run
    registers the record type, and [begin_undo_actions] only comes
    second, so one creating call lies outside the bracket. *)
Lemma registration_precedes_begin :
  (exists rest,
     calls (final_view (main Scenario.bv))
     = CallDefineUserType CorePanicLocation.type_name CorePanicLocation.location_type
         :: CallBeginUndoActions :: rest)
  /\ mutations_bracketed BeforeBegin (calls (final_view (main Scenario.bv))) = false.
Proof. split; [eexists|]; vm_compute; reflexivity. Qed.

(** C1, amended: in every run of [main] the record type is registered,
    when it is, before [begin_undo_actions]; every call after that
    which creates something creates a data object, a tag type or a tag,
    and lies between [begin_undo_actions] and the closing
    [commit_undo_actions], which is only reached when no stage
    raised. *)
Theorem objects_and_tags_inside_bracket (bv : BinaryView) :
  exists body,
    calls (final_view (main bv))
    = calls bv ++ registration_calls bv ++ [CallBeginUndoActions] ++ body
        ++ closing_calls (main bv)
    /\ forallb is_object_or_tag_call body = true
    /\ mutations_bracketed BeforeBegin
         ([CallBeginUndoActions] ++ body ++ closing_calls (main bv)) = true.
Proof.
  destruct (main_trace bv) as (body & Htrace & Hbody).
  exists body. repeat split; try assumption.
  apply (bracketed_inside body (closing_calls (main bv))); [assumption|].
  destruct (main bv); reflexivity.
Qed.

(** ** Type registration (C2) *)

Lemma filter_key_absent {V} (l : list (pystr * V)) (k : pystr) :
  k ∉ l.*1 -> List.filter (fun kv => str_eqb (fst kv) k) l = [].
Proof.
  induction l as [|[k' v'] l IH]; intros Hk; simpl; [reflexivity|].
  simpl in Hk. apply not_elem_of_cons in Hk as [Hne Hk].
  unfold str_eqb. rewrite bool_decide_eq_false_2 by congruence. auto.
Qed.

Lemma filter_key_unique {V} (l : list (pystr * V)) (k : pystr) (v : V) :
  NoDup l.*1 -> (k, v) ∈ l -> List.filter (fun kv => str_eqb (fst kv) k) l = [(k, v)].
Proof.
  induction l as [|[k' v'] l IH]; intros Hnd Hin; [inversion Hin|].
  simpl in Hnd. apply NoDup_cons in Hnd as [Hk' Hnd]. simpl.
  apply elem_of_cons in Hin as [Heq|Hin].
  - inversion Heq; subst k' v'. unfold str_eqb at 1.
    rewrite bool_decide_eq_true_2 by reflexivity.
    rewrite filter_key_absent by assumption. reflexivity.
  - assert (k' <> k).
    { intros ->. apply Hk'. apply (list_elem_of_fmap_2 fst) in Hin. exact Hin. }
    unfold str_eqb at 1. rewrite bool_decide_eq_false_2 by assumption. auto.
Qed.

Lemma registered_count_lookup name t bv :
  types bv !! name = Some t -> registered_count name bv = 1%nat.
Proof.
  intros H. unfold registered_count.
  rewrite (filter_key_unique _ name t); [reflexivity| |].
  - apply NoDup_fst_map_to_list.
  - apply elem_of_map_to_list. exact H.
Qed.

(** C2, as stated, fails: on a view where the record type is already
    registered, [create_binary_ninja_type] does not return untouched
    but asks the host to define the type once more. *)
Lemma registered_type_is_defined_again :
  is_Some (types Variants.registered !! CorePanicLocation.type_name)
  /\ CorePanicLocation.create_binary_ninja_type Variants.registered
     <> Returned tt Variants.registered
  /\ calls (final_view (CorePanicLocation.create_binary_ninja_type Variants.registered))
     = calls Variants.registered
         ++ [CallDefineUserType CorePanicLocation.type_name CorePanicLocation.location_type].
Proof.
  split; [|split].
  - vm_compute. eauto.
  - intros H. apply (f_equal (fun o => length (calls (final_view o)))) in H.
    vm_compute in H. discriminate.
  - vm_compute. reflexivity.
Qed.

(** A type of another shape already registered under the name is
    replaced. *)
Example create_type_replaces_registered_type :
  let bv0 := with_types {[ CorePanicLocation.type_name := IntegerType 4 ]} Scenario.bv in
  types bv0 !! CorePanicLocation.type_name = Some (IntegerType 4)
  /\ types (final_view (CorePanicLocation.create_binary_ninja_type bv0))
       !! CorePanicLocation.type_name
     = Some CorePanicLocation.location_type.
Proof. split; vm_compute; reflexivity. Qed.

(** C2, amended: [create_binary_ninja_type] makes no existence check.
    With an architecture it always asks the host to define the type
    under the canonical name, replacing whatever was registered there;
    without one it leaves the view untouched.  Two calls in sequence
    both return, issue the definition request twice, and leave the same
    registry as one call, with exactly one type under that name. *)
Theorem create_type_twice (bv : BinaryView) :
  let bv1 := final_view (CorePanicLocation.create_binary_ninja_type bv) in
  let bv2 := final_view (CorePanicLocation.create_binary_ninja_type bv1) in
  CorePanicLocation.create_binary_ninja_type bv = Returned tt bv1
  /\ CorePanicLocation.create_binary_ninja_type bv1 = Returned tt bv2
  /\ calls bv2 = calls bv ++ registration_calls bv ++ registration_calls bv
  /\ types bv2 = types bv1
  /\ match arch bv with
     | Some _ =>
         types bv1 = <[CorePanicLocation.type_name := CorePanicLocation.location_type]> (types bv)
         /\ registered_count CorePanicLocation.type_name bv2 = 1%nat
     | None => bv1 = bv
     end.
Proof.
  intros bv1 bv2. split; [apply create_type_returns|]. split; [apply create_type_returns|].
  subst bv2 bv1.
  unfold CorePanicLocation.create_binary_ninja_type, registration_calls, bind, Host.get_arch.
  destruct (arch bv) as [a|] eqn:Harch; cbn; rewrite ?Harch; cbn.
  - split; [rewrite <- app_assoc; reflexivity|].
    split; [apply insert_insert_eq|].
    split; [reflexivity|].
    apply (registered_count_lookup _ CorePanicLocation.location_type). cbn.
    apply lookup_insert_eq.
  - rewrite app_nil_r. auto.
Qed.

(** ** The candidate scan *)

Ltac case_scrutinee :=
  match goal with
  | |- context [match ?x with _ => _ end] => destruct x
  end.

Lemma scan_ref_eval bv ref cp acc :
  scan_ref ref (cp, acc) bv = scan_ref_outcome bv ref cp acc.
Proof.
  unfold scan_ref, scan_ref_outcome, classified, bind, Host.get_data_var_at, py_get,
    py_decode, read_local, Host.platform_name, ret, raise.
  destruct (data_vars bv !! ref) as [slice|]; [|reflexivity].
  destruct (dv_value slice) as [|z|b|s|d]; try reflexivity.
  destruct (default VNone (dict_lookup (lit "_address") d)) as [|a|b|s|d']; try reflexivity.
  destruct (data_vars bv !! a) as [backing|]; [|reflexivity].
  destruct (dv_value backing) as [|z|b|s|d']; try reflexivity.
  - destruct (platform bv); [destruct cp|]; reflexivity.
  - destruct (decode_utf8 b); [destruct (platform bv)|]; reflexivity.
  - destruct (platform bv); reflexivity.
  - destruct (platform bv); [destruct cp|]; reflexivity.
Qed.

(** The scan reads nothing but the data variables and the platform. *)
Lemma scan_ref_frame bv bv0 ref st :
  data_vars bv = data_vars bv0 -> platform bv = platform bv0 ->
  scan_ref ref st bv = retarget bv (scan_ref ref st bv0).
Proof.
  intros Hd Hp. destruct st as [cp acc]. rewrite !scan_ref_eval.
  unfold scan_ref_outcome, classified. rewrite Hd, Hp.
  repeat (case_scrutinee; try reflexivity).
Qed.

Lemma scan_frame bv bv0 refs st :
  data_vars bv = data_vars bv0 -> platform bv = platform bv0 ->
  for_each refs scan_ref st bv = retarget bv (for_each refs scan_ref st bv0).
Proof.
  intros Hd Hp. revert st. induction refs as [|r refs IH]; intros st; simpl.
  - reflexivity.
  - unfold bind. rewrite (scan_ref_frame bv bv0) by assumption.
    pose proof (scan_ref_reads_only r st bv0) as Hsame.
    destruct (scan_ref r st bv0) as [st' bv'|e bv']; simpl in *.
    + subst bv'. apply IH.
    + reflexivity.
Qed.

Lemma find_frame bv bv0 :
  data_vars bv = data_vars bv0 -> platform bv = platform bv0 ->
  data_refs_for_type bv = data_refs_for_type bv0 ->
  find_string_slice_variables_containing_source_file_path bv
  = retarget bv (find_string_slice_variables_containing_source_file_path bv0).
Proof.
  intros Hd Hp Hr.
  unfold find_string_slice_variables_containing_source_file_path, bind,
    Host.get_data_refs_for_type.
  rewrite Hr, (scan_frame bv bv0) by assumption.
  destruct (for_each _ scan_ref _ bv0); reflexivity.
Qed.

Lemma find_opened bv :
  find_string_slice_variables_containing_source_file_path (opened bv)
  = retarget (opened bv) (find_string_slice_variables_containing_source_file_path bv).
Proof.
  apply find_frame; [apply data_vars_opened | apply platform_opened | apply data_refs_opened].
Qed.

(** The function, once the list of references is known *)
Lemma find_unfold bv refs :
  data_refs_for_type bv !! lit "&str" = Some refs ->
  find_string_slice_variables_containing_source_file_path bv
  = (let! st := for_each refs scan_ref (None, []) in ret (snd st)) bv.
Proof.
  intros H.
  unfold find_string_slice_variables_containing_source_file_path, bind at 1,
    Host.get_data_refs_for_type.
  rewrite H. reflexivity.
Qed.

Lemma scan_ref_unresolved bv ref st : unresolved bv ref -> scan_ref ref st bv = Returned st bv.
Proof.
  destruct st as [cp acc].
  intros [H | slice d H Hv Ha | slice d a H Hv Ha Hb | slice d a backing H Hv Ha Hb Hn];
    unfold scan_ref, bind; simpl; rewrite H; try reflexivity;
    rewrite Hv; simpl; unfold ret.
  - rewrite Ha. reflexivity.
  - rewrite Ha. simpl. rewrite Hb. reflexivity.
  - rewrite Ha. simpl. rewrite Hb, Hn. reflexivity.
Qed.

Lemma scan_ref_backed bv ref slice value cp acc :
  backed_by bv ref slice value ->
  scan_ref ref (cp, acc) bv
  = match value with
    | VNone => Returned (cp, acc) bv
    | VBytes b =>
        match decode_utf8 b with
        | Some s => classified bv (Some (PText s)) acc slice
        | None => Raised UnicodeDecodeError bv
        end
    | VStr s => classified bv (Some (PText s)) acc slice
    | VInt _ | VDict _ => classified bv cp acc slice
    end.
Proof.
  intros (d & a & backing & H & Hv & Ha & Hb & Hval).
  unfold scan_ref, bind, classified; simpl. rewrite H, Hv; simpl. unfold ret.
  rewrite Ha; simpl. rewrite Hb, Hval.
  unfold Host.platform_name, read_local, ret, raise.
  destruct value as [|z|b|s|d']; try reflexivity.
  - destruct (platform bv); [destruct cp|]; reflexivity.
  - simpl. destruct (decode_utf8 b); [|reflexivity]. destruct (platform bv); reflexivity.
  - destruct (platform bv); reflexivity.
  - destruct (platform bv); [destruct cp|]; reflexivity.
Qed.

(** Rebuilding a path from a path object of the same platform gives
    the same path. *)
Lemma path_for_platform_again p arg :
  path_for_platform p (PPath (path_for_platform p arg)) = path_for_platform p arg.
Proof.
  unfold path_for_platform. destruct (contains (lit "windows") p); destruct arg as [s|q];
    simpl; try reflexivity; destruct (path_flavour q); reflexivity.
Qed.

Lemma is_source_file_path_again p arg :
  is_source_file_path p (PPath (path_for_platform p arg)) = is_source_file_path p arg.
Proof. unfold is_source_file_path. rewrite path_for_platform_again. reflexivity. Qed.

Lemma scan_ref_carries bv p ref cp acc cp' acc' bv' :
  platform bv = Some p ->
  scan_ref ref (cp, acc) bv = Returned (cp', acc') bv' ->
  cp' = cp
  \/ (exists s, entry_text bv ref s /\ cp' = Some (PPath (path_for_platform p (PText s))))
  \/ (exists c, cp = Some c /\ cp' = Some (PPath (path_for_platform p c))).
Proof.
  intros Hp.
  destruct (data_vars bv !! ref) as [slice|] eqn:H.
  2:{ rewrite (scan_ref_unresolved bv ref) by (apply no_data_object; assumption).
      intros [= <- <- <-]. auto. }
  destruct (dv_value slice) as [|z|b|s|d] eqn:Hv;
    try (unfold scan_ref, bind; simpl; rewrite H, Hv; simpl; discriminate).
  destruct (dict_lookup (lit "_address") d) as [address|] eqn:Ha.
  2:{ rewrite (scan_ref_unresolved bv ref)
        by (eapply no_back_reference; eauto; rewrite Ha; reflexivity).
      intros [= <- <- <-]. auto. }
  destruct address as [|a|b|s|d'];
    try (unfold scan_ref, bind; simpl; rewrite H, Hv; simpl; unfold ret; rewrite Ha; simpl;
         discriminate).
  { rewrite (scan_ref_unresolved bv ref)
      by (eapply no_back_reference; eauto; rewrite Ha; reflexivity).
    intros [= <- <- <-]. auto. }
  destruct (data_vars bv !! a) as [backing|] eqn:Hb.
  2:{ rewrite (scan_ref_unresolved bv ref) by (eapply no_backing_object; eauto).
      intros [= <- <- <-]. auto. }
  assert (Hbacked : backed_by bv ref slice (dv_value backing)).
  { exists d, a, backing. auto. }
  rewrite (scan_ref_backed bv ref slice (dv_value backing)) by assumption.
  unfold classified. rewrite Hp.
  destruct (dv_value backing) as [|z|b|s|d'] eqn:Hval.
  - intros [= <- <- <-]. auto.
  - destruct cp as [c|]; [|discriminate]. intros [= <- <- <-]. right. right. eauto.
  - destruct (decode_utf8 b) as [s|] eqn:Hdec; [|discriminate].
    intros [= <- <- <-]. right. left. exists s. split; [|reflexivity].
    exists slice, (VBytes b). split; [assumption|]. right. eauto.
  - intros [= <- <- <-]. right. left. exists s. split; [|reflexivity].
    exists slice, (VStr s). split; [assumption|]. left. reflexivity.
  - destruct cp as [c|]; [|discriminate]. intros [= <- <- <-]. right. right. eauto.
Qed.

Lemma scan_carries bv p refs :
  platform bv = Some p ->
  forall seen cp acc c acc' bv',
    (forall c0, cp = Some c0 -> from_entry bv p seen c0) ->
    for_each refs scan_ref (cp, acc) bv = Returned (Some c, acc') bv' ->
    from_entry bv p (seen ++ refs) c.
Proof.
  intros Hp. induction refs as [|r refs IH]; intros seen cp acc c acc' bv' Hcp; cbn [for_each].
  - unfold ret. intros [= -> _ _]. rewrite app_nil_r. auto.
  - unfold bind. destruct (scan_ref r (cp, acc) bv) as [[cp1 acc1] bv1|e bv1] eqn:Hstep;
      [|discriminate].
    pose proof (scan_ref_reads_only r (cp, acc) bv) as Hsame. rewrite Hstep in Hsame.
    simpl in Hsame. subst bv1. intros Hrest.
    replace (seen ++ r :: refs) with ((seen ++ [r]) ++ refs) by (rewrite <- app_assoc; reflexivity).
    apply (IH (seen ++ [r]) cp1 acc1 c acc' bv'); [|assumption].
    intros c0 Hc0.
    destruct (scan_ref_carries _ _ _ _ _ _ _ _ Hp Hstep) as [-> | [(s & Htext & ->) | (c1 & -> & ->)]].
    + destruct (Hcp c0 Hc0) as (r0 & s & Hin & Htext & ->).
      exists r0, s. split; [apply elem_of_app; auto|auto].
    + injection Hc0 as <-. exists r, s. split; [apply elem_of_app; right; constructor|auto].
    + injection Hc0 as <-. destruct (Hcp c1 eq_refl) as (r0 & s & Hin & Htext & ->).
      exists r0, s. split; [apply elem_of_app; auto|].
      split; [assumption|]. rewrite path_for_platform_again. reflexivity.
Qed.

(** A scan that raises ends [main] right after the opening. *)
Lemma main_scan_raised bv e :
  find_string_slice_variables_containing_source_file_path bv = Raised e bv ->
  main bv = Raised e (opened bv).
Proof.
  intros H. rewrite main_opened. unfold bind. rewrite find_opened, H. reflexivity.
Qed.

(** ** Undecodable bytes (C3) *)

(** C3, as stated, fails: the first string view of [undecodable] points
    at bytes that are not UTF-8, and both the scan and the whole run
    end in [UnicodeDecodeError]; the second string view, which on its
    own would be kept, is never looked at. *)
Lemma undecodable_bytes_abort_the_run :
  backed_by Variants.undecodable 0x1000 (Variants.slice_to 0x1000 0x3000) (VBytes [xff; xfe])
  /\ decode_utf8 [xff; xfe] = None
  /\ raises (find_string_slice_variables_containing_source_file_path Variants.undecodable)
       UnicodeDecodeError
  /\ raises (main Variants.undecodable) UnicodeDecodeError
  /\ snd <$> returned_value (for_each [0x1100] scan_ref (None, []) Variants.undecodable)
     = Some [Variants.slice_to 0x1100 0x3100].
Proof.
  split.
  { exists [ (lit "_address", VInt 0x3000); (lit "length", VInt 2) ], 0x3000,
      (Variants.bytes_var 0x3000 [xff; xfe]).
    repeat split; vm_compute; reflexivity. }
  repeat split; vm_compute; reflexivity.
Qed.

(** C3, amended: the plugin does not catch a decoding failure.  When
    the scan reaches a string view whose backing bytes are not valid
    UTF-8, it stops there with [UnicodeDecodeError]: no list of
    candidates is returned, the references after it are not examined,
    and [main] ends with the same error after [begin_undo_actions] and
    without [commit_undo_actions]. *)
Theorem decode_error_propagates (bv bv' : BinaryView) (refs1 refs2 : list Z) (r : Z)
    (st : ScanState) (slice : DataVariable) (b : pybytes) :
  data_refs_for_type bv !! lit "&str" = Some (refs1 ++ r :: refs2) ->
  for_each refs1 scan_ref (None, []) bv = Returned st bv' ->
  backed_by bv r slice (VBytes b) ->
  decode_utf8 b = None ->
  find_string_slice_variables_containing_source_file_path bv = Raised UnicodeDecodeError bv
  /\ raises (main bv) UnicodeDecodeError
  /\ calls (final_view (main bv))
     = calls bv ++ registration_calls bv ++ [CallBeginUndoActions].
Proof.
  intros Hrefs Hprefix Hbacked Hdec.
  assert (Hfind : find_string_slice_variables_containing_source_file_path bv
                  = Raised UnicodeDecodeError bv).
  { rewrite (find_unfold _ _ Hrefs). unfold bind at 1. rewrite for_each_app.
    unfold bind at 1. rewrite Hprefix. apply scan_returned in Hprefix. subst bv'.
    cbn [for_each]. unfold bind at 1. destruct st as [cp acc].
    rewrite (scan_ref_backed _ _ _ _ _ _ Hbacked), Hdec. reflexivity. }
  split; [exact Hfind|].
  rewrite (main_scan_raised _ _ Hfind). split; [reflexivity | apply calls_opened].
Qed.

Lemma decode_error_propagates_witness :
  find_string_slice_variables_containing_source_file_path Variants.undecodable
  = Raised UnicodeDecodeError Variants.undecodable
  /\ raises (main Variants.undecodable) UnicodeDecodeError
  /\ calls (final_view (main Variants.undecodable))
     = calls Variants.undecodable ++ registration_calls Variants.undecodable
         ++ [CallBeginUndoActions].
Proof.
  apply (decode_error_propagates Variants.undecodable Variants.undecodable
           [] [0x1100] 0x1000 (None, []) (Variants.slice_to 0x1000 0x3000) [xff; xfe]).
  - vm_compute. reflexivity.
  - reflexivity.
  - exists [ (lit "_address", VInt 0x3000); (lit "length", VInt 2) ], 0x3000,
      (Variants.bytes_var 0x3000 [xff; xfe]).
    repeat split; vm_compute; reflexivity.
  - vm_compute. reflexivity.
Defined.

(** ** The path classifier (C5) *)

(** C5: for every text and platform name the classifier answers true
    exactly when the path parsed from the text, with Windows rules if
    the platform name contains "windows" and POSIX rules otherwise, has
    the suffix [.rs], compared code point by code point; on the four
    paths of the specification it answers true, false, true and
    false. *)
Theorem classifier_tests_rs_suffix :
  (forall p s,
     is_source_file_path p (PText s) = true
     <-> suffix (new_path (if contains (lit "windows") p then ntpath else posixpath) (PText s))
         = lit ".rs")
  /\ is_source_file_path (lit "linux") (PText (lit "src/main.rs")) = true
  /\ is_source_file_path (lit "windows-x86_64") (PText (lit "src/main.rs")) = true
  /\ is_source_file_path (lit "linux") (PText (lit "src/main.RS")) = false
  /\ is_source_file_path (lit "windows-x86_64") (PText (lit "src/main.RS")) = false
  /\ is_source_file_path (lit "windows-x86_64") (PText (lit "C:\proj\lib.rs")) = true
  /\ is_source_file_path (lit "linux") (PText (lit "notasourcefile.txt")) = false
  /\ is_source_file_path (lit "windows-x86_64") (PText (lit "notasourcefile.txt")) = false.
Proof.
  split.
  - intros p s. unfold is_source_file_path, path_for_platform, str_eqb.
    rewrite bool_decide_eq_true. destruct (contains (lit "windows") p); reflexivity.
  - repeat split; vm_compute; reflexivity.
Qed.

(** ** Unresolved references (C6) *)

(** C6, where the code falls short of the claim: a string view whose
    variable has no value has no back-reference address in its value,
    yet it is not passed over.  On [Corners.valueless_first] the
    variable at 0x0FF0 has value [None]; line 101 calls [.get] on it,
    the iteration raises [AttributeError] whatever the loop's state,
    and the scan ends with that error and no result, although the
    reference after it, 0x1000, scanned from the same view, is a
    source-file path and would have been kept.  Line 104 tests
    [.value is not None] for the backing variable; line 100 has no
    such test for the string view's own variable. *)
Theorem valueless_reference_ends_scan :
  dv_value <$> data_vars Corners.valueless_first !! 0x0FF0 = Some VNone
  /\ data_refs_for_type Corners.valueless_first !! lit "&str" = Some [0x0FF0; 0x1000]
  /\ (forall st, scan_ref 0x0FF0 st Corners.valueless_first
                 = Raised AttributeError Corners.valueless_first)
  /\ find_string_slice_variables_containing_source_file_path Corners.valueless_first
     = Raised AttributeError Corners.valueless_first
  /\ returned_value (for_each [0x1000] scan_ref (None, []) Corners.valueless_first)
     = Some (Some (PPath (path_for_platform (lit "linux") (PText Scenario.panic_rs))),
             [Scenario.slice_at_1000]).
Proof.
  split; [vm_compute; reflexivity|]. split; [vm_compute; reflexivity|].
  split; [intros [candidate_path kept]; vm_compute; reflexivity|].
  split; vm_compute; reflexivity.
Qed.

(** X22: a reference that fails to resolve in one of the ways of
    [unresolved] -- no data object at it; a dictionary value with no
    back-reference address, or [None] under it; nothing, or nothing
    with a value, at that address -- is passed over: its iteration
    returns with the loop's state untouched, and the scan gives what
    it gives on the list without that reference. *)
Theorem unresolved_reference_skipped (bv : BinaryView) (refs1 refs2 : list Z) (r : Z) :
  data_refs_for_type bv !! lit "&str" = Some (refs1 ++ r :: refs2) ->
  unresolved bv r ->
  (forall st, scan_ref r st bv = Returned st bv)
  /\ find_string_slice_variables_containing_source_file_path bv
     = (let! st := for_each (refs1 ++ refs2) scan_ref (None, []) in ret (snd st)) bv.
Proof.
  intros Hrefs Hun. split; [intros st; apply scan_ref_unresolved; assumption|].
  rewrite (find_unfold _ _ Hrefs). unfold bind. rewrite !for_each_app. unfold bind.
  destruct (for_each refs1 scan_ref (None, []) bv) as [st bv'|e bv'] eqn:Hprefix;
    [|reflexivity].
  apply scan_returned in Hprefix. subst bv'.
  cbn [for_each]. unfold bind. rewrite scan_ref_unresolved by assumption. reflexivity.
Qed.

Lemma unresolved_reference_skipped_witness :
  (forall st, scan_ref 0x0FF0 st Variants.dangling = Returned st Variants.dangling)
  /\ find_string_slice_variables_containing_source_file_path Variants.dangling
     = (let! st := for_each ([] ++ [0x1000]) scan_ref (None, []) in ret (snd st))
         Variants.dangling.
Proof.
  apply (unresolved_reference_skipped Variants.dangling [] [0x1000] 0x0FF0).
  - vm_compute. reflexivity.
  - apply no_data_object. vm_compute. reflexivity.
Defined.

(** ** Backing values that are neither bytes nor text (C10) *)

(** C10: when the backing variable of a string view holds a value that
    is not [None], not bytes and not text, the entry is not passed
    over.  With [candidate_path] still unassigned the iteration raises
    [UnboundLocalError], which ends the scan and [main]; otherwise the
    entry is kept or dropped by the test applied to the value of
    [candidate_path], which is the path of the text of an entry scanned
    earlier.  (The platform name is read first, so the view has to
    have a platform.) *)
Theorem untyped_backing_reuses_candidate_path (bv : BinaryView) (refs1 refs2 : list Z) (r : Z)
    (slice : DataVariable) (value : PyVal) (p : pystr) :
  data_refs_for_type bv !! lit "&str" = Some (refs1 ++ r :: refs2) ->
  backed_by bv r slice value ->
  neither_bytes_nor_text value ->
  platform bv = Some p ->
  (forall acc, scan_ref r (None, acc) bv = Raised UnboundLocalError bv)
  /\ (forall c acc,
        scan_ref r (Some c, acc) bv
        = Returned (Some (PPath (path_for_platform p c)),
                    if is_source_file_path p c then acc ++ [slice] else acc) bv)
  /\ (forall acc,
        for_each refs1 scan_ref (None, []) bv = Returned (None, acc) bv ->
        find_string_slice_variables_containing_source_file_path bv
        = Raised UnboundLocalError bv
        /\ raises (main bv) UnboundLocalError)
  /\ (forall c acc,
        for_each refs1 scan_ref (None, []) bv = Returned (Some c, acc) bv ->
        exists r0 s,
          r0 ∈ refs1 /\ entry_text bv r0 s
          /\ for_each (refs1 ++ [r]) scan_ref (None, []) bv
             = Returned (Some c, if is_source_file_path p (PText s) then acc ++ [slice] else acc)
                 bv).
Proof.
  intros Hrefs Hbacked Hvalue Hp.
  assert (Hstep : forall cp acc, scan_ref r (cp, acc) bv = classified bv cp acc slice).
  { intros cp acc. rewrite (scan_ref_backed _ _ _ _ _ _ Hbacked).
    destruct value; simpl in Hvalue; try contradiction; reflexivity. }
  split; [|split; [|split]].
  - intros acc. rewrite Hstep. unfold classified. rewrite Hp. reflexivity.
  - intros c acc. rewrite Hstep. unfold classified. rewrite Hp. reflexivity.
  - intros acc Hprefix.
    assert (Hfind : find_string_slice_variables_containing_source_file_path bv
                    = Raised UnboundLocalError bv).
    { rewrite (find_unfold _ _ Hrefs). unfold bind. rewrite for_each_app. unfold bind.
      rewrite Hprefix. cbn [for_each]. unfold bind. rewrite Hstep. unfold classified.
      rewrite Hp. reflexivity. }
    split; [exact Hfind|]. rewrite (main_scan_raised _ _ Hfind). reflexivity.
  - intros c acc Hprefix.
    destruct (scan_carries bv p refs1 Hp [] None [] c acc bv) as (r0 & s & Hin & Htext & ->);
      [discriminate | exact Hprefix |].
    exists r0, s. split; [exact Hin|]. split; [exact Htext|].
    rewrite for_each_app. unfold bind. rewrite Hprefix. cbn [for_each]. unfold bind.
    rewrite Hstep. unfold classified. rewrite Hp.
    rewrite path_for_platform_again, is_source_file_path_again. reflexivity.
Qed.

Lemma untyped_backing_reuses_candidate_path_witness :
  (forall acc, scan_ref 0x1100 (None, acc) Variants.carried
               = Raised UnboundLocalError Variants.carried)
  /\ exists r0 s,
       r0 ∈ [0x1000] /\ entry_text Variants.carried r0 s
       /\ for_each ([0x1000] ++ [0x1100]) scan_ref (None, []) Variants.carried
          = Returned (Some (PPath {| path_flavour := posixpath; raw_path := lit "src/main.rs" |}),
                      if is_source_file_path (lit "linux") (PText s)
                      then [Variants.slice_to 0x1000 0x3100] ++ [Variants.slice_to 0x1100 0x3000]
                      else [Variants.slice_to 0x1000 0x3100])
              Variants.carried.
Proof.
  destruct (untyped_backing_reuses_candidate_path Variants.carried [0x1000] [] 0x1100
              (Variants.slice_to 0x1100 0x3000) (VInt 7) (lit "linux")) as (H1 & _ & _ & H4).
  - vm_compute. reflexivity.
  - exists [ (lit "_address", VInt 0x3000); (lit "length", VInt 2) ], 0x3000,
      {| dv_address := 0x3000; dv_name := None; dv_value := VInt 7 |}.
    repeat split; vm_compute; reflexivity.
  - exact I.
  - vm_compute. reflexivity.
  - split; [exact H1|]. apply H4. vm_compute. reflexivity.
Defined.

(** On [carried] the second string view, whose backing value is an
    integer, is returned along with the first: it is judged by the
    first one's path. *)
Example untyped_entry_inherits_path :
  returned_value (find_string_slice_variables_containing_source_file_path Variants.carried)
  = Some [Variants.slice_to 0x1000 0x3100; Variants.slice_to 0x1100 0x3000].
Proof. vm_compute. reflexivity. Qed.

Example untyped_entry_first_aborts :
  raises (main Variants.untyped_backing) UnboundLocalError.
Proof. vm_compute. reflexivity. Qed.

(** ** Record synthesis (C7, C8) *)

Lemma unquote_location :
  Host.unquote (lit "`core::panic::Location`") = CorePanicLocation.type_name.
Proof. reflexivity. Qed.

Lemma create_instance_outcome bv location name t :
  types bv !! CorePanicLocation.type_name = Some t ->
  exists result bv',
    CorePanicLocation.create_binary_ninja_instance location name bv = Returned result bv'
    /\ calls bv' = calls bv
                   ++ [CallDefineUserDataVar location (lit "`core::panic::Location`") name result]
    /\ types bv' = types bv
    /\ forall v, result = Some v -> dv_address v = location.
Proof.
  intros Ht.
  unfold CorePanicLocation.create_binary_ninja_instance, Host.define_user_data_var, bind,
    Host.parse_type_string.
  rewrite unquote_location, Ht.
  destruct (record_view bv t (data_vars bv) location) as [v|]; cbn;
    eexists _, _; (split; [reflexivity|]); cbn; (split; [reflexivity|]);
    (split; [reflexivity|]); intros v' [= <-]; reflexivity.
Qed.

Lemma synthesize_loop candidates :
  forall acc bv t,
    types bv !! CorePanicLocation.type_name = Some t ->
    exists bv' cs,
      for_each candidates synthesize_one acc bv = Returned (acc ++ omap call_result cs) bv'
      /\ calls bv' = calls bv ++ cs
      /\ Forall2 requests candidates cs.
Proof.
  induction candidates as [|c candidates IH]; intros acc bv t Ht; cbn [for_each].
  - exists bv, []. cbn. rewrite !app_nil_r. auto.
  - unfold bind, synthesize_one at 1, bind.
    destruct (create_instance_outcome bv (dv_address c) (panic_location_name c) t Ht)
      as (result & bv1 & -> & Hcalls & Htypes & Haddr).
    assert (Ht1 : types bv1 !! CorePanicLocation.type_name = Some t) by (rewrite Htypes; exact Ht).
    destruct result as [v|]; unfold ret.
    + destruct (IH (acc ++ [v]) bv1 t Ht1) as (bv' & cs & -> & Hcs & Hreq).
      exists bv', (CallDefineUserDataVar (dv_address c) (lit "`core::panic::Location`")
                     (panic_location_name c) (Some v) :: cs).
      cbn [omap list_omap call_result]. rewrite <- app_assoc. split; [reflexivity|].
      rewrite Hcs, Hcalls, <- app_assoc. split; [reflexivity|].
      constructor; [|exact Hreq]. eexists. split; [reflexivity | exact Haddr].
    + destruct (IH acc bv1 t Ht1) as (bv' & cs & -> & Hcs & Hreq).
      exists bv', (CallDefineUserDataVar (dv_address c) (lit "`core::panic::Location`")
                     (panic_location_name c) None :: cs).
      cbn [omap list_omap call_result]. split; [reflexivity|].
      rewrite Hcs, Hcalls, <- app_assoc. split; [reflexivity|].
      constructor; [|exact Hreq]. eexists. split; [reflexivity | exact Haddr].
Qed.

(** C7: the synthesizer never raises.  With the record type
    registered it asks the host for one definition per candidate, in
    order, whatever the earlier answers were, and returns exactly the
    variables the host answered with: a candidate whose definition the
    host refuses contributes nothing, and the ones after it are still
    asked for. *)
Theorem synthesize_omits_refused_candidates (bv : BinaryView) (candidates : list DataVariable) :
  exists bv' cs,
    set_panic_locations_from_source_file_path_string_variables candidates bv
    = Returned (omap call_result cs) bv'
    /\ calls bv' = calls bv ++ cs
    /\ match types bv !! CorePanicLocation.type_name with
       | Some _ => Forall2 requests candidates cs
       | None => cs = []
       end.
Proof.
  unfold set_panic_locations_from_source_file_path_string_variables,
    CorePanicLocation.check_binary_ninja_type_exists, bind, Host.get_type_by_name, ret.
  destruct (types bv !! CorePanicLocation.type_name) as [t|] eqn:Ht.
  - rewrite bool_decide_eq_true_2 by eauto.
    destruct (synthesize_loop candidates [] bv t Ht) as (bv' & cs & H & Hcs & Hreq).
    exists bv', cs. auto.
  - rewrite bool_decide_eq_false_2 by (intros [? ?]; discriminate).
    exists bv, []. rewrite app_nil_r. auto.
Qed.

(** C8: without the record type in the registry the synthesizer
    returns the empty list and leaves the view as it was. *)
Theorem synthesize_without_type (bv : BinaryView) (candidates : list DataVariable) :
  types bv !! CorePanicLocation.type_name = None ->
  set_panic_locations_from_source_file_path_string_variables candidates bv = Returned [] bv.
Proof.
  intros Ht.
  unfold set_panic_locations_from_source_file_path_string_variables,
    CorePanicLocation.check_binary_ninja_type_exists, bind, Host.get_type_by_name, ret.
  rewrite Ht, bool_decide_eq_false_2 by (intros [? ?]; discriminate). reflexivity.
Qed.

Lemma synthesize_without_type_witness :
  set_panic_locations_from_source_file_path_string_variables [Scenario.slice_at_1000] Scenario.bv
  = Returned [] Scenario.bv.
Proof.
  apply (synthesize_without_type Scenario.bv [Scenario.slice_at_1000]).
  vm_compute. reflexivity.
Defined.

(** A view where the host refuses the first of two definitions: the
    record at 0x1000 is still returned. *)
Example refused_candidate_omitted :
  returned_value
    (set_panic_locations_from_source_file_path_string_variables
       [Variants.slice_to 0x0FF0 0x3000; Scenario.slice_at_1000] Variants.registered)
  = Some [Scenario.record_at_1000].
Proof. vm_compute. reflexivity. Qed.

(** ** Annotation (C9) *)

Lemma preserves_create_tag_type name icon : preserves data_vars (Host.create_tag_type name icon).
Proof. intros bv. reflexivity. Qed.

Lemma preserves_add_tag addr type_name data user :
  preserves data_vars (Host.add_tag addr type_name data user).
Proof. intros bv. unfold Host.add_tag. destruct (bool_decide _); reflexivity. Qed.

Lemma annotate_one_keeps_data_vars record u : preserves data_vars (annotate_one record u).
Proof.
  unfold annotate_one.
  repeat (apply preserves_bind; [solve [auto with preserve]|]; intros ?).
  apply preserves_match_option; [|auto with preserve]. intros string_data.
  repeat (apply preserves_bind; [solve [auto with preserve]|]; intros ?).
  apply preserves_bind; [apply preserves_create_tag_type|]. intros _.
  apply preserves_bind; [auto with preserve|]. intros refs.
  apply preserves_for_each. intros r []. unfold tag_code_ref.
  apply preserves_bind; [auto with preserve|]. intros line_text.
  apply preserves_bind; [auto with preserve|]. intros col_text.
  apply preserves_bind; [apply preserves_add_tag|]. intros _.
  apply preserves_log_info. reflexivity.
Qed.

Lemma annotate_one_unresolved bv record :
  file_unresolved bv record -> annotate_one record tt bv = Returned tt bv.
Proof.
  intros (d & file & a & Hv & Hfile & Ha & Hnone).
  unfold annotate_one, bind. rewrite Hv. cbn [py_subscript]. rewrite Hfile. unfold ret.
  cbn [py_subscript]. rewrite Ha. unfold ret. cbn [Host.get_data_var_at]. rewrite Hnone.
  reflexivity.
Qed.

(** C9: a record whose [file] field points at an address with no data
    object gets nothing: its iteration returns with the view
    untouched -- no tag type, no tag -- and the annotator does with the
    other records what it does when that record is not in the list. *)
Theorem unresolved_record_skipped (bv : BinaryView) (records1 records2 : list DataVariable)
    (record : DataVariable) :
  file_unresolved bv record ->
  annotate_one record tt bv = Returned tt bv
  /\ find_panic_location_code_refs_and_set_tags (records1 ++ record :: records2) bv
     = find_panic_location_code_refs_and_set_tags (records1 ++ records2) bv.
Proof.
  intros Hun. split; [apply annotate_one_unresolved; exact Hun|].
  unfold find_panic_location_code_refs_and_set_tags. rewrite !for_each_app. unfold bind.
  pose proof (preserves_for_each data_vars records1 annotate_one
                annotate_one_keeps_data_vars tt bv) as Hsame.
  destruct (for_each records1 annotate_one tt bv) as [[] bv1|e bv1]; [|reflexivity].
  cbn [final_view] in Hsame. cbn [for_each]. unfold bind.
  rewrite annotate_one_unresolved; [reflexivity|].
  destruct Hun as (d & file & a & Hv & Hfile & Ha & Hnone).
  exists d, file, a. rewrite Hsame. auto.
Qed.

Lemma unresolved_record_skipped_witness :
  let record :=
    {| dv_address := 0x1000; dv_name := None;
       dv_value := VDict [ (lit "file", VDict [ (lit "_address", VInt 0x4000) ]);
                           (lit "line", VInt 1); (lit "col", VInt 1) ] |} in
  annotate_one record tt Scenario.bv = Returned tt Scenario.bv
  /\ find_panic_location_code_refs_and_set_tags ([] ++ record :: [Scenario.record_at_1000])
       Scenario.bv
     = find_panic_location_code_refs_and_set_tags ([] ++ [Scenario.record_at_1000]) Scenario.bv.
Proof.
  intros record. apply (unresolved_record_skipped Scenario.bv [] [Scenario.record_at_1000] record).
  exists [ (lit "file", VDict [ (lit "_address", VInt 0x4000) ]);
           (lit "line", VInt 1); (lit "col", VInt 1) ],
    [ (lit "_address", VInt 0x4000) ], 0x4000.
  repeat split; vm_compute; reflexivity.
Defined.

(** ** The whole pipeline on one record (C4) *)

#[local] Arguments lit : simpl never.
#[local] Arguments tag_type_suffix : simpl never.
#[local] Arguments tag_icon : simpl never.

Lemma opened_with_arch bv a :
  arch bv = Some a ->
  types (opened bv)
  = <[CorePanicLocation.type_name := CorePanicLocation.location_type]> (types bv)
  /\ record_view (opened bv) = record_view bv
  /\ code_refs (opened bv) = code_refs bv
  /\ tag_types (opened bv) = tag_types bv
  /\ tags (opened bv) = tags bv.
Proof.
  intros H. unfold opened, CorePanicLocation.create_binary_ninja_type, bind, Host.get_arch.
  rewrite H. cbn. auto.
Qed.

Lemma synthesize_single bv slice t v :
  types bv !! CorePanicLocation.type_name = Some t ->
  record_view bv t (data_vars bv) (dv_address slice) = Some v ->
  let record := {| dv_address := dv_address slice;
                   dv_name := Some (panic_location_name slice);
                   dv_value := v |} in
  exists bv',
    set_panic_locations_from_source_file_path_string_variables [slice] bv
    = Returned [record] bv'
    /\ types bv' = types bv
    /\ data_vars bv' = <[dv_address slice := record]> (data_vars bv)
    /\ code_refs bv' = code_refs bv
    /\ tag_types bv' = tag_types bv
    /\ tags bv' = tags bv.
Proof.
  intros Ht Hview record.
  unfold set_panic_locations_from_source_file_path_string_variables,
    CorePanicLocation.check_binary_ninja_type_exists, bind, Host.get_type_by_name, ret.
  rewrite Ht, bool_decide_eq_true_2 by eauto.
  cbn [for_each].
  unfold bind, synthesize_one, CorePanicLocation.create_binary_ninja_instance, bind,
    Host.define_user_data_var, bind, Host.parse_type_string.
  rewrite unquote_location, Ht, Hview. cbn.
  eexists. repeat split.
Qed.

Lemma tag_code_refs bv name path line col refs :
  name = path ++ tag_type_suffix ->
  name ∈ (tag_types bv).*1 ->
  exists bv',
    for_each refs (tag_code_ref name path line col) tt bv = Returned tt bv'
    /\ types bv' = types bv
    /\ data_vars bv' = data_vars bv
    /\ tag_types bv' = tag_types bv
    /\ tags bv' = tags bv ++ map (panic_tag (isprintable bv) path line col) refs.
Proof.
  intros -> . revert bv. induction refs as [|r refs IH]; intros bv Hin; cbn [for_each].
  - exists bv. cbn. rewrite app_nil_r. auto.
  - unfold bind, tag_code_ref at 1, bind, format_field, Host.add_tag. cbv beta iota.
    rewrite bool_decide_eq_true_2 by exact Hin. cbn.
    match goal with
    | |- context [for_each refs _ tt ?bv1] =>
        destruct (IH bv1 Hin) as (bv' & -> & Htypes & Hdata & Htt & Htags)
    end.
    exists bv'. cbn in *. rewrite Htags, <- app_assoc. auto.
Qed.

Lemma annotate_single bv record fields file target backing b path line col refs :
  dv_value record = VDict fields ->
  dict_lookup (lit "file") fields = Some (VDict file) ->
  dict_lookup (lit "_address") file = Some (VInt target) ->
  data_vars bv !! target = Some backing ->
  dv_value backing = VBytes b ->
  decode_utf8 b = Some path ->
  dict_lookup (lit "line") fields = Some line ->
  dict_lookup (lit "col") fields = Some col ->
  code_refs bv !! dv_address record = Some refs ->
  exists bv',
    find_panic_location_code_refs_and_set_tags [record] bv = Returned tt bv'
    /\ types bv' = types bv
    /\ data_vars bv' = data_vars bv
    /\ tag_types bv' = tag_types bv ++ [(path ++ tag_type_suffix, tag_icon)]
    /\ tags bv' = tags bv ++ map (panic_tag (isprintable bv) path line col) refs.
Proof.
  intros Hv Hfile Ha Hbacking Hbytes Hdec Hline Hcol Hrefs.
  unfold find_panic_location_code_refs_and_set_tags. cbn [for_each].
  unfold bind, annotate_one, bind. rewrite Hv. cbn [py_subscript]. rewrite Hfile. unfold ret.
  cbn [py_subscript]. rewrite Ha. unfold ret. cbn [Host.get_data_var_at].
  rewrite Hbacking, Hbytes. cbn [py_decode]. rewrite Hdec. unfold ret.
  rewrite Hline, Hcol. unfold Host.create_tag_type, Host.get_code_refs. cbn.
  rewrite Hrefs. cbn.
  match goal with
  | |- context [for_each refs _ tt ?bv1] =>
      destruct (tag_code_refs bv1 (path ++ tag_type_suffix) path line col refs eq_refl)
        as (bv' & -> & Htypes & Hdata & Htt & Htags)
  end.
  { cbn. rewrite fmap_app. apply elem_of_app. right. constructor. }
  exists bv'. cbn in *. auto.
Qed.

(** C4: on a view with an architecture and platform [linux], whose
    only string view sits at 0x1000 and points at bytes spelling
    [library/core/src/panic.rs], where the record laid over 0x1000
    reads that string view, line 42 and column 9, and where the one
    code reference to 0x1000 is at 0x2000, [main] returns, having
    registered the record type under its canonical name, defined the
    record at 0x1000, created one tag type whose name contains the
    path, and added exactly one tag, a user tag at 0x2000 whose text
    contains [line 42, col 9]. *)
Theorem end_to_end (bv : BinaryView) (a : pystr) (slice backing : DataVariable)
    (d fields : list (pystr * PyVal)) (target : Z) (b : pybytes) :
  arch bv = Some a ->
  platform bv = Some (lit "linux") ->
  data_refs_for_type bv !! lit "&str" = Some [0x1000] ->
  data_vars bv !! 0x1000 = Some slice ->
  dv_address slice = 0x1000 ->
  dv_value slice = VDict d ->
  dict_lookup (lit "_address") d = Some (VInt target) ->
  target <> 0x1000 ->
  data_vars bv !! target = Some backing ->
  dv_value backing = VBytes b ->
  decode_utf8 b = Some Scenario.panic_rs ->
  record_view bv CorePanicLocation.location_type (data_vars bv) 0x1000 = Some (VDict fields) ->
  dict_lookup (lit "file") fields = Some (VDict d) ->
  dict_lookup (lit "line") fields = Some (VInt 42) ->
  dict_lookup (lit "col") fields = Some (VInt 9) ->
  code_refs bv !! 0x1000 = Some [0x2000] ->
  exists bv',
    main bv = Returned tt bv'
    /\ types bv'
       = <[CorePanicLocation.type_name := CorePanicLocation.location_type]> (types bv)
    /\ data_vars bv'
       = <[0x1000 := {| dv_address := 0x1000;
                        dv_name := Some (panic_location_name slice);
                        dv_value := VDict fields |}]> (data_vars bv)
    /\ tag_types bv' = tag_types bv ++ [(Scenario.panic_rs ++ tag_type_suffix, tag_icon)]
    /\ contains Scenario.panic_rs (Scenario.panic_rs ++ tag_type_suffix) = true
    /\ tags bv'
       = tags bv ++ [ {| tag_addr := 0x2000;
                         tag_type_name := Scenario.panic_rs ++ tag_type_suffix;
                         tag_data := lit "library/core/src/panic.rs: line 42, col 9";
                         tag_user := true |} ]
    /\ contains (lit "line 42, col 9") (lit "library/core/src/panic.rs: line 42, col 9") = true.
Proof.
  intros Harch Hplat Hrefs Hslice Haddr Hval Htarget Hne Hbacking Hbytes Hdec Hview
    Hfile Hline Hcol Hcode.
  assert (Hfind : find_string_slice_variables_containing_source_file_path bv
                  = Returned [slice] bv).
  { rewrite (find_unfold _ _ Hrefs). unfold bind. cbn [for_each]. unfold bind.
    rewrite (scan_ref_backed bv 0x1000 slice (VBytes b)) by (exists d, target, backing; auto).
    rewrite Hdec. unfold classified. rewrite Hplat.
    change (is_source_file_path (lit "linux") (PText Scenario.panic_rs)) with true.
    reflexivity. }
  destruct (opened_with_arch bv a Harch) as (Htypes0 & Hview0 & Hcode0 & Htt0 & Htags0).
  destruct (synthesize_single (opened bv) slice CorePanicLocation.location_type (VDict fields))
    as (bv2 & Hsynth & Htypes2 & Hdata2 & Hcode2 & Htt2 & Htags2).
  { rewrite Htypes0. apply lookup_insert_eq. }
  { rewrite Hview0, data_vars_opened, Haddr. exact Hview. }
  rewrite data_vars_opened, Haddr in Hdata2. rewrite Haddr in Hsynth.
  destruct (annotate_single bv2
              {| dv_address := 0x1000; dv_name := Some (panic_location_name slice);
                 dv_value := VDict fields |}
              fields d target backing b Scenario.panic_rs (VInt 42) (VInt 9) [0x2000])
    as (bv3 & Hann & Htypes3 & Hdata3 & Htt3 & Htags3); try assumption; try reflexivity.
  { rewrite Hdata2, lookup_insert_ne by congruence. exact Hbacking. }
  { rewrite Hcode2, Hcode0. exact Hcode. }
  rewrite main_opened. unfold bind. rewrite find_opened, Hfind. cbn [retarget].
  rewrite Hsynth, Hann. unfold Host.commit_undo_actions, Host.update_analysis.
  eexists. split; [reflexivity|]. cbn -[lookup insert].
  rewrite Htypes3, Htypes2, Htypes0, Hdata3, Hdata2, Htt3, Htt2, Htt0, Htags3, Htags2, Htags0.
  repeat split; vm_compute; reflexivity.
Qed.

Lemma end_to_end_witness :
  exists bv',
    main Scenario.bv = Returned tt bv'
    /\ types bv'
       = <[CorePanicLocation.type_name := CorePanicLocation.location_type]> (types Scenario.bv)
    /\ data_vars bv'
       = <[0x1000 := {| dv_address := 0x1000;
                        dv_name := Some (panic_location_name Scenario.slice_at_1000);
                        dv_value := dv_value Scenario.record_at_1000 |}]>
           (data_vars Scenario.bv)
    /\ tag_types bv'
       = tag_types Scenario.bv ++ [(Scenario.panic_rs ++ tag_type_suffix, tag_icon)]
    /\ contains Scenario.panic_rs (Scenario.panic_rs ++ tag_type_suffix) = true
    /\ tags bv'
       = tags Scenario.bv
           ++ [ {| tag_addr := 0x2000;
                   tag_type_name := Scenario.panic_rs ++ tag_type_suffix;
                   tag_data := lit "library/core/src/panic.rs: line 42, col 9";
                   tag_user := true |} ]
    /\ contains (lit "line 42, col 9") (lit "library/core/src/panic.rs: line 42, col 9") = true.
Proof.
  apply (end_to_end Scenario.bv (lit "x86_64") Scenario.slice_at_1000 Scenario.bytes_at_3000
           [ (lit "_address", VInt 0x3000); (lit "length", VInt 25) ]
           [ (lit "file", dv_value Scenario.slice_at_1000);
             (lit "line", VInt 42); (lit "col", VInt 9) ]
           0x3000 (list_byte_of_string "library/core/src/panic.rs"));
    try (vm_compute; reflexivity).
  discriminate.
Defined.

(** * Further properties of the plugin *)

(** ** The scan *)

(** X1: the candidate scan only reads.  Whether it returns or raises,
    the view it leaves is the view it was given: no type, data
    variable, tag, call or log line is added. *)
Theorem scan_leaves_view_untouched (bv : BinaryView) :
  final_view (find_string_slice_variables_containing_source_file_path bv) = bv.
Proof. apply find_reads_only. Qed.

Lemma scan_ref_keeps bv ref cp acc cp' acc' bv' :
  scan_ref ref (cp, acc) bv = Returned (cp', acc') bv' ->
  acc' = acc \/ exists slice, data_vars bv !! ref = Some slice /\ acc' = acc ++ [slice].
Proof.
  rewrite scan_ref_eval. unfold scan_ref_outcome, classified.
  destruct (data_vars bv !! ref) as [slice|]; [|intros [= <- <- <-]; auto].
  destruct (dv_value slice) as [|z|b|s|d]; try discriminate.
  destruct (default VNone (dict_lookup (lit "_address") d)) as [|a|b|s|d'];
    try discriminate; [intros [= <- <- <-]; auto|].
  destruct (data_vars bv !! a) as [backing|]; [|intros [= <- <- <-]; auto].
  assert (Hkept : forall c : option PathLike,
            match platform bv with
            | Some p =>
                match c with
                | Some arg =>
                    Returned (Some (PPath (path_for_platform p arg)),
                              if is_source_file_path p arg then acc ++ [slice] else acc) bv
                | None => Raised UnboundLocalError bv
                end
            | None => Raised AttributeError bv
            end = Returned (cp', acc') bv' ->
            acc' = acc \/ exists slice0, Some slice = Some slice0 /\ acc' = acc ++ [slice0]).
  { intros c. destruct (platform bv) as [p|]; [|discriminate].
    destruct c as [arg|]; [|discriminate].
    destruct (is_source_file_path p arg); intros [= <- <- <-]; eauto. }
  destruct (dv_value backing) as [|z|b|s|d'].
  - intros [= <- <- <-]; auto.
  - exact (Hkept cp).
  - destruct (decode_utf8 b) as [s|]; [exact (Hkept (Some (PText s))) | discriminate].
  - exact (Hkept (Some (PText s))).
  - exact (Hkept cp).
Qed.

Lemma scan_keeps bv refs :
  forall cp acc cp' acc' bv',
    for_each refs scan_ref (cp, acc) bv = Returned (cp', acc') bv' ->
    exists kept,
      acc' = acc ++ kept /\ sublist kept (omap (fun r => data_vars bv !! r) refs).
Proof.
  induction refs as [|r refs IH]; intros cp acc cp' acc' bv'; cbn [for_each].
  - unfold ret. intros [= <- <- <-]. exists []. rewrite app_nil_r. split; constructor.
  - unfold bind.
    destruct (scan_ref r (cp, acc) bv) as [[cp1 acc1] bv1|e bv1] eqn:Hstep; [|discriminate].
    pose proof (scan_ref_reads_only r (cp, acc) bv) as Hsame. rewrite Hstep in Hsame.
    cbn in Hsame. subst bv1. intros Hrest.
    destruct (IH _ _ _ _ _ Hrest) as (kept & -> & Hsub).
    destruct (scan_ref_keeps _ _ _ _ _ _ _ Hstep) as [-> | (slice & Hslice & ->)].
    + exists kept. split; [reflexivity|]. cbn. destruct (data_vars bv !! r).
      * apply sublist_cons. exact Hsub.
      * exact Hsub.
    + exists (slice :: kept). rewrite <- app_assoc. split; [reflexivity|].
      cbn. rewrite Hslice. apply sublist_skip. exact Hsub.
Qed.

(** X2: what the scan returns is drawn, in order and without
    repetition of a reference, from the data variables found at the
    string-view references: nothing else can be a candidate. *)
Theorem scan_returns_referenced_variables (bv bv' : BinaryView)
    (candidates : list DataVariable) :
  find_string_slice_variables_containing_source_file_path bv = Returned candidates bv' ->
  sublist candidates
    (omap (fun r => data_vars bv !! r) (default [] (data_refs_for_type bv !! lit "&str"))).
Proof.
  unfold find_string_slice_variables_containing_source_file_path, bind at 1,
    Host.get_data_refs_for_type.
  unfold bind.
  destruct (for_each _ scan_ref (None, []) bv) as [[cp acc] bv1|e bv1] eqn:Hloop;
    [|discriminate].
  unfold ret. intros [= <- <-].
  destruct (scan_keeps _ _ _ _ _ _ _ Hloop) as (kept & -> & Hsub). exact Hsub.
Qed.

Lemma scan_returns_referenced_variables_witness :
  sublist [Variants.slice_to 0x1000 0x3100; Variants.slice_to 0x1100 0x3000]
    (omap (fun r => data_vars Variants.carried !! r)
       (default [] (data_refs_for_type Variants.carried !! lit "&str"))).
Proof.
  apply (scan_returns_referenced_variables Variants.carried Variants.carried).
  vm_compute. reflexivity.
Defined.

(** X3: the scan depends on nothing but the string-view references,
    the data variables and the platform: two views that agree on these
    give the same candidates, or fail with the same error. *)
Theorem scan_reads_three_things (bv bv0 : BinaryView) :
  data_refs_for_type bv = data_refs_for_type bv0 ->
  data_vars bv = data_vars bv0 ->
  platform bv = platform bv0 ->
  find_string_slice_variables_containing_source_file_path bv
  = retarget bv (find_string_slice_variables_containing_source_file_path bv0).
Proof. intros Hr Hd Hp. apply find_frame; assumption. Qed.

Lemma scan_reads_three_things_witness :
  find_string_slice_variables_containing_source_file_path Variants.registered
  = retarget Variants.registered
      (find_string_slice_variables_containing_source_file_path Scenario.bv).
Proof.
  apply (scan_reads_three_things Variants.registered Scenario.bv); reflexivity.
Defined.

(** X4: a string-view reference whose data variable has a value that
    is not a dictionary -- [None] included -- is not passed over: the
    [.get] on line 101 raises [AttributeError], which ends the scan. *)
Theorem valueless_string_view_aborts (bv bv' : BinaryView) (refs1 refs2 : list Z) (r : Z)
    (st : ScanState) (slice : DataVariable) :
  data_refs_for_type bv !! lit "&str" = Some (refs1 ++ r :: refs2) ->
  for_each refs1 scan_ref (None, []) bv = Returned st bv' ->
  data_vars bv !! r = Some slice ->
  (forall d, dv_value slice <> VDict d) ->
  (forall st0, scan_ref r st0 bv = Raised AttributeError bv)
  /\ find_string_slice_variables_containing_source_file_path bv = Raised AttributeError bv.
Proof.
  intros Hrefs Hprefix Hslice Hnot.
  assert (Hstep : forall st0, scan_ref r st0 bv = Raised AttributeError bv).
  { intros [cp acc]. rewrite scan_ref_eval. unfold scan_ref_outcome. rewrite Hslice.
    destruct (dv_value slice) as [|z|b|s|d]; try reflexivity. destruct (Hnot d eq_refl). }
  split; [exact Hstep|].
  rewrite (find_unfold _ _ Hrefs). unfold bind. rewrite for_each_app. unfold bind.
  rewrite Hprefix. apply scan_returned in Hprefix. subst bv'.
  cbn [for_each]. unfold bind. rewrite Hstep. reflexivity.
Qed.

Lemma valueless_string_view_aborts_witness :
  (forall st0, scan_ref 0x1000 st0 Corners.valueless_slice
               = Raised AttributeError Corners.valueless_slice)
  /\ find_string_slice_variables_containing_source_file_path Corners.valueless_slice
     = Raised AttributeError Corners.valueless_slice.
Proof.
  apply (valueless_string_view_aborts Corners.valueless_slice Corners.valueless_slice
           [] [] 0x1000 (None, [])
           {| dv_address := 0x1000; dv_name := None; dv_value := VNone |}).
  - vm_compute. reflexivity.
  - reflexivity.
  - vm_compute. reflexivity.
  - intros d. cbn. discriminate.
Defined.

(** X5: on a view without a platform the scan cannot classify
    anything: the first reference that resolves to a backing value --
    decodable bytes, text or anything else but [None] -- raises
    [AttributeError], even with [candidate_path] unassigned. *)
Theorem scan_needs_platform (bv : BinaryView) (r : Z) (slice : DataVariable) (value : PyVal)
    (st : ScanState) :
  platform bv = None ->
  backed_by bv r slice value ->
  value <> VNone ->
  (forall b, value = VBytes b -> decode_utf8 b <> None) ->
  scan_ref r st bv = Raised AttributeError bv.
Proof.
  intros Hp Hbacked Hsome Hdec. destruct st as [cp acc].
  rewrite (scan_ref_backed _ _ _ _ _ _ Hbacked). unfold classified. rewrite Hp.
  destruct value as [|z|b|s|d]; try reflexivity.
  - destruct (Hsome eq_refl).
  - destruct (decode_utf8 b) eqn:Hb; [reflexivity|]. destruct (Hdec b eq_refl Hb).
Qed.

Lemma scan_needs_platform_witness :
  scan_ref 0x1000 (None, []) Corners.no_platform = Raised AttributeError Corners.no_platform.
Proof.
  apply (scan_needs_platform Corners.no_platform 0x1000 Scenario.slice_at_1000
           (VBytes (list_byte_of_string "library/core/src/panic.rs"))).
  - reflexivity.
  - exists [ (lit "_address", VInt 0x3000); (lit "length", VInt 25) ], 0x3000,
      Scenario.bytes_at_3000.
    repeat split; vm_compute; reflexivity.
  - discriminate.
  - intros b [= <-]. vm_compute. discriminate.
Defined.

(** X6: an entry whose backing variable holds bytes or text of its own
    is judged by that text alone: what [candidate_path] held from
    earlier entries plays no part, and the entry leaves the path of its
    own text behind. *)
Theorem own_text_overrides_candidate_path (bv : BinaryView) (r : Z) (slice : DataVariable)
    (value : PyVal) (s p : pystr) (cp : option PathLike) (acc : list DataVariable) :
  backed_by bv r slice value ->
  value = VStr s \/ (exists b, value = VBytes b /\ decode_utf8 b = Some s) ->
  platform bv = Some p ->
  scan_ref r (cp, acc) bv
  = Returned (Some (PPath (path_for_platform p (PText s))),
              if is_source_file_path p (PText s) then acc ++ [slice] else acc) bv.
Proof.
  intros Hbacked Hvalue Hp. rewrite (scan_ref_backed _ _ _ _ _ _ Hbacked).
  unfold classified.
  destruct Hvalue as [-> | (b & -> & Hdec)]; [|rewrite Hdec]; rewrite Hp; reflexivity.
Qed.

Lemma own_text_overrides_candidate_path_witness :
  scan_ref 0x1000
    (Some (PText (lit "notes.txt")), []) Variants.carried
  = Returned (Some (PPath (path_for_platform (lit "linux") (PText (lit "src/main.rs")))),
              if is_source_file_path (lit "linux") (PText (lit "src/main.rs"))
              then [] ++ [Variants.slice_to 0x1000 0x3100] else []) Variants.carried.
Proof.
  apply (own_text_overrides_candidate_path Variants.carried 0x1000
           (Variants.slice_to 0x1000 0x3100)
           (VBytes (list_byte_of_string "src/main.rs"))).
  - exists [ (lit "_address", VInt 0x3100); (lit "length", VInt 2) ], 0x3100,
      (Variants.bytes_var 0x3100 (list_byte_of_string "src/main.rs")).
    repeat split; vm_compute; reflexivity.
  - right. eexists. split; [reflexivity | vm_compute; reflexivity].
  - reflexivity.
Defined.

(** ** The annotator *)

(** X7: text is good enough for the scan but not for the annotator.  A
    string view whose backing variable holds text ending in [.rs] is
    kept as a candidate, yet for a record whose [file] field is that
    string view the annotator raises [AttributeError] at the [.decode]
    of line 152, before it has created any tag type or tag. *)
Theorem text_backing_kept_then_rejected (bv bv1 : BinaryView) (r a : Z)
    (slice backing record : DataVariable) (s p : pystr) (d fields : list (pystr * PyVal)) :
  data_vars bv !! r = Some slice ->
  dv_value slice = VDict d ->
  dict_lookup (lit "_address") d = Some (VInt a) ->
  data_vars bv !! a = Some backing ->
  dv_value backing = VStr s ->
  platform bv = Some p ->
  is_source_file_path p (PText s) = true ->
  dv_value record = VDict fields ->
  dict_lookup (lit "file") fields = Some (VDict d) ->
  data_vars bv1 !! a = Some backing ->
  (forall cp acc, exists cp',
      scan_ref r (cp, acc) bv = Returned (cp', acc ++ [slice]) bv)
  /\ annotate_one record tt bv1 = Raised AttributeError bv1.
Proof.
  intros Hslice Hd Ha Hbacking Hval Hp Hrs Hv Hfile Hthere. split.
  - intros cp acc. eexists.
    rewrite (scan_ref_backed bv r slice (VStr s)) by (exists d, a, backing; auto).
    unfold classified. rewrite Hp, Hrs. reflexivity.
  - unfold annotate_one, bind. rewrite Hv. cbn [py_subscript]. rewrite Hfile.
    unfold ret. cbn [py_subscript]. rewrite Ha. unfold ret. cbn [Host.get_data_var_at].
    rewrite Hthere, Hval. reflexivity.
Qed.

Lemma text_backing_kept_then_rejected_witness :
  (forall cp acc, exists cp',
      scan_ref 0x1000 (cp, acc) Corners.text_backing
      = Returned (cp', acc ++ [Scenario.slice_at_1000]) Corners.text_backing)
  /\ annotate_one Scenario.record_at_1000 tt Corners.text_backing
     = Raised AttributeError Corners.text_backing.
Proof.
  apply (text_backing_kept_then_rejected Corners.text_backing Corners.text_backing
           0x1000 0x3000 Scenario.slice_at_1000 Corners.text_at_3000 Scenario.record_at_1000
           (lit "src/lib.rs") (lit "linux")
           [ (lit "_address", VInt 0x3000); (lit "length", VInt 25) ]
           [ (lit "file", dv_value Scenario.slice_at_1000);
             (lit "line", VInt 42); (lit "col", VInt 9) ]);
    vm_compute; reflexivity.
Defined.

(** On [text_backing] the whole run defines the record at 0x1000 and
    then stops in the annotator, with the undo bracket left open. *)
Example text_backing_run :
  raises (main Corners.text_backing) AttributeError
  /\ data_vars (final_view (main Corners.text_backing)) !! 0x1000
     = Some Scenario.record_at_1000
  /\ tags (final_view (main Corners.text_backing)) = []
  /\ last (calls (final_view (main Corners.text_backing)))
     = Some (CallDefineUserDataVar 0x1000 (lit "`core::panic::Location`")
               (lit "panic_location_data_1000") (Some Scenario.record_at_1000)).
Proof. repeat split; vm_compute; reflexivity. Qed.







(** A member that is not a number is written as [str] writes it, a
    code point that is not printable spelled out. *)
Example control_character_spelled_out :
  tag_data <$> tags (final_view (find_panic_location_code_refs_and_set_tags
                                   [Corners.record_with_control_character] Scenario.bv))
  = [lit "library/core/src/panic.rs: line {'k': '\x80'}, col 9"].
Proof. vm_compute. reflexivity. Qed.



(** X10: a record whose value lacks the [line] or the [col] member
    makes the annotator raise [KeyError].  The members are read before
    the tag type is created, so the view is left exactly as it was. *)
Theorem record_without_line_or_col_raises (bv : BinaryView) (record backing : DataVariable)
    (fields file : list (pystr * PyVal)) (a : Z) (b : pybytes) (path : pystr) :
  dv_value record = VDict fields ->
  dict_lookup (lit "file") fields = Some (VDict file) ->
  dict_lookup (lit "_address") file = Some (VInt a) ->
  data_vars bv !! a = Some backing ->
  dv_value backing = VBytes b ->
  decode_utf8 b = Some path ->
  dict_lookup (lit "line") fields = None \/ dict_lookup (lit "col") fields = None ->
  annotate_one record tt bv = Raised KeyError bv.
Proof.
  intros Hv Hfile Ha Hbacking Hbytes Hdec Hmissing.
  unfold annotate_one, bind. rewrite Hv. cbn [py_subscript]. rewrite Hfile. unfold ret.
  cbn [py_subscript]. rewrite Ha. unfold ret. cbn [Host.get_data_var_at].
  rewrite Hbacking, Hbytes. cbn [py_decode]. rewrite Hdec. unfold ret.
  destruct Hmissing as [Hline | Hcol].
  - rewrite Hline. reflexivity.
  - rewrite Hcol. destruct (dict_lookup (lit "line") fields); reflexivity.
Qed.

Lemma record_without_line_or_col_raises_witness :
  annotate_one Corners.record_without_col tt Scenario.bv = Raised KeyError Scenario.bv.
Proof.
  apply (record_without_line_or_col_raises Scenario.bv Corners.record_without_col
           Scenario.bytes_at_3000
           [ (lit "file", dv_value Scenario.slice_at_1000); (lit "line", VInt 42) ]
           [ (lit "_address", VInt 0x3000); (lit "length", VInt 25) ]
           0x3000 (list_byte_of_string "library/core/src/panic.rs") Scenario.panic_rs);
    try (vm_compute; reflexivity).
  right. vm_compute. reflexivity.
Defined.

(** ** The synthesizer *)

Lemma create_instance_frame bv location name :
  let bv' := final_view (CorePanicLocation.create_binary_ninja_instance location name bv) in
  types bv' = types bv
  /\ tags bv' = tags bv
  /\ tag_types bv' = tag_types bv
  /\ code_refs bv' = code_refs bv
  /\ record_view bv' = record_view bv
  /\ (forall a, a <> location -> data_vars bv' !! a = data_vars bv !! a)
  /\ (forall v, returned_value (CorePanicLocation.create_binary_ninja_instance location name bv)
                = Some (Some v) ->
                dv_address v = location /\ data_vars bv' !! location = Some v).
Proof.
  unfold CorePanicLocation.create_binary_ninja_instance, Host.define_user_data_var, bind,
    Host.parse_type_string.
  destruct (types bv !! Host.unquote (lit "`core::panic::Location`")) as [t|]; cbn.
  2:{ repeat split; auto; discriminate. }
  destruct (record_view bv t (data_vars bv) location) as [v|]; cbn.
  - repeat split; auto.
    + intros a Ha. apply lookup_insert_ne. congruence.
    + injection H as <-. reflexivity.
    + injection H as <-. apply lookup_insert_eq.
  - repeat split; auto; discriminate.
Qed.

Lemma synthesize_step c candidates acc bv :
  for_each (c :: candidates) synthesize_one acc bv
  = match CorePanicLocation.create_binary_ninja_instance (dv_address c)
            (panic_location_name c) bv with
    | Returned r bv1 =>
        for_each candidates synthesize_one
          (match r with Some v => acc ++ [v] | None => acc end) bv1
    | Raised e bv1 => Raised e bv1
    end.
Proof.
  cbn [for_each]. unfold bind, synthesize_one, bind.
  destruct (CorePanicLocation.create_binary_ninja_instance _ _ bv) as [[v|] bv1|e bv1];
    reflexivity.
Qed.

Lemma synthesize_loop_frame candidates :
  forall acc bv a,
    a ∉ map dv_address candidates ->
    let bv' := final_view (for_each candidates synthesize_one acc bv) in
    data_vars bv' !! a = data_vars bv !! a
    /\ types bv' = types bv
    /\ tags bv' = tags bv
    /\ tag_types bv' = tag_types bv
    /\ code_refs bv' = code_refs bv.
Proof.
  induction candidates as [|c candidates IH]; intros acc bv a Ha; cbv zeta.
  - cbn. auto.
  - cbn [map] in Ha. apply not_elem_of_cons in Ha as [Hne Ha].
    rewrite synthesize_step.
    destruct (create_instance_frame bv (dv_address c) (panic_location_name c))
      as (Htypes & Htags & Htt & Hcode & _ & Hdata & _).
    destruct (CorePanicLocation.create_binary_ninja_instance (dv_address c)
                (panic_location_name c) bv) as [r bv1|e bv1];
      cbn [final_view] in Htypes, Htags, Htt, Hcode, Hdata.
    + specialize (IH (match r with Some v => acc ++ [v] | None => acc end) bv1 a Ha).
      cbv zeta in IH. destruct IH as (H1 & H2 & H3 & H4 & H5).
      rewrite H1, H2, H3, H4, H5, Hdata by assumption. auto.
    + cbn [final_view]. rewrite Hdata by assumption. auto.
Qed.

(** X11: the synthesizer works at the candidates' addresses only.  A
    data variable at any other address is left as it was, and no type,
    tag type, tag or code reference is touched. *)
Theorem synthesizer_stays_at_candidate_addresses (bv : BinaryView)
    (candidates : list DataVariable) (a : Z) :
  a ∉ map dv_address candidates ->
  let bv' :=
    final_view (set_panic_locations_from_source_file_path_string_variables candidates bv) in
  data_vars bv' !! a = data_vars bv !! a
  /\ types bv' = types bv
  /\ tags bv' = tags bv
  /\ tag_types bv' = tag_types bv
  /\ code_refs bv' = code_refs bv.
Proof.
  intros Ha.
  unfold set_panic_locations_from_source_file_path_string_variables,
    CorePanicLocation.check_binary_ninja_type_exists, bind, Host.get_type_by_name, ret.
  destruct (bool_decide (is_Some (types bv !! CorePanicLocation.type_name))).
  - apply synthesize_loop_frame. exact Ha.
  - cbn. auto.
Qed.

Lemma synthesizer_stays_at_candidate_addresses_witness :
  let bv' :=
    final_view (set_panic_locations_from_source_file_path_string_variables
                  [Scenario.slice_at_1000] Variants.registered) in
  data_vars bv' !! 0x3000 = data_vars Variants.registered !! 0x3000
  /\ types bv' = types Variants.registered
  /\ tags bv' = tags Variants.registered
  /\ tag_types bv' = tag_types Variants.registered
  /\ code_refs bv' = code_refs Variants.registered.
Proof.
  apply (synthesizer_stays_at_candidate_addresses Variants.registered
           [Scenario.slice_at_1000] 0x3000).
  cbn. intros H. apply elem_of_cons in H as [H|H]; [discriminate H | inversion H].
Defined.

Lemma synthesize_loop_stored candidates :
  forall acc bv recs bv',
    NoDup (map dv_address candidates) ->
    Forall (fun v => (dv_address v ∉ map dv_address candidates)
                     /\ data_vars bv !! dv_address v = Some v) acc ->
    for_each candidates synthesize_one acc bv = Returned recs bv' ->
    Forall (fun v => data_vars bv' !! dv_address v = Some v) recs.
Proof.
  induction candidates as [|c candidates IH]; intros acc bv recs bv' Hnd Hacc.
  - cbn [for_each]. unfold ret. intros [= <- <-].
    eapply Forall_impl; [exact Hacc|]. intros v [_ H]. exact H.
  - cbn [map] in Hnd. apply NoDup_cons in Hnd as [Hc Hnd].
    rewrite synthesize_step.
    destruct (create_instance_frame bv (dv_address c) (panic_location_name c))
      as (_ & _ & _ & _ & _ & Hdata & Hstored).
    destruct (CorePanicLocation.create_binary_ninja_instance (dv_address c)
                (panic_location_name c) bv) as [r bv1|e bv1]; [|discriminate].
    cbn [final_view returned_value] in Hdata, Hstored.
    assert (Hacc1 : Forall (fun v => (dv_address v ∉ map dv_address candidates)
                                     /\ data_vars bv1 !! dv_address v = Some v) acc).
    { eapply Forall_impl; [exact Hacc|]. intros v [Hv Hin]. cbn [map] in Hv.
      apply not_elem_of_cons in Hv as [Hne Hv]. split; [exact Hv|].
      rewrite Hdata by exact Hne. exact Hin. }
    destruct r as [v|].
    + destruct (Hstored v eq_refl) as [Haddr Hin].
      apply (IH (acc ++ [v]) bv1 recs bv' Hnd).
      apply Forall_app. split; [exact Hacc1|]. constructor; [|constructor].
      rewrite Haddr. auto.
    + apply (IH acc bv1 recs bv' Hnd Hacc1).
Qed.

(** X12: when the candidates sit at pairwise distinct addresses, every
    record the synthesizer returns is, when it returns, the data
    variable stored at that record's address. *)
Theorem synthesized_records_are_stored (bv bv' : BinaryView)
    (candidates records : list DataVariable) :
  NoDup (map dv_address candidates) ->
  set_panic_locations_from_source_file_path_string_variables candidates bv
  = Returned records bv' ->
  Forall (fun v => data_vars bv' !! dv_address v = Some v) records.
Proof.
  intros Hnd.
  unfold set_panic_locations_from_source_file_path_string_variables,
    CorePanicLocation.check_binary_ninja_type_exists, bind, Host.get_type_by_name, ret.
  destruct (bool_decide (is_Some (types bv !! CorePanicLocation.type_name))).
  - apply synthesize_loop_stored; [exact Hnd | constructor].
  - intros [= <- <-]. constructor.
Qed.

Lemma synthesized_records_are_stored_witness :
  Forall (fun v =>
            data_vars
              (final_view (set_panic_locations_from_source_file_path_string_variables
                             [Scenario.slice_at_1000] Variants.registered))
              !! dv_address v = Some v)
    [Scenario.record_at_1000].
Proof.
  apply (synthesized_records_are_stored Variants.registered _ [Scenario.slice_at_1000]).
  - repeat constructor. cbn. apply not_elem_of_nil.
  - vm_compute. reflexivity.
Defined.

(** X13: the log claims success before the outcome is looked at.  When
    the host refuses a definition, [create_binary_ninja_instance] still
    logs "Defined new ... at <address>" at level info, and then an
    error whose text is the same for every address: the message on line
    84 is not an f-string, so its [{location:#x}] is logged as
    written. *)
Theorem refused_definition_logged_as_defined (bv : BinaryView) (t : TypeObj) (location : Z)
    (name : pystr) :
  types bv !! CorePanicLocation.type_name = Some t ->
  record_view bv t (data_vars bv) location = None ->
  exists bv',
    CorePanicLocation.create_binary_ninja_instance location name bv = Returned None bv'
    /\ log bv'
       = log bv
           ++ [ (Info, lit "Defined new `core::panic::Location` at " ++ hex_of_Z location);
                (Error,
                 lit "Unable to create `core::panic::Location` data variable at {location:#x}") ]
    /\ data_vars bv' = data_vars bv.
Proof.
  intros Ht Hview.
  unfold CorePanicLocation.create_binary_ninja_instance, Host.define_user_data_var, bind,
    Host.parse_type_string.
  rewrite unquote_location, Ht, Hview. cbn.
  eexists. split; [reflexivity|]. cbn. rewrite <- app_assoc. auto.
Qed.

Lemma refused_definition_logged_as_defined_witness :
  exists bv',
    CorePanicLocation.create_binary_ninja_instance 0x0FF0 (lit "panic_location_None")
      Variants.registered = Returned None bv'
    /\ log bv'
       = log Variants.registered
           ++ [ (Info, lit "Defined new `core::panic::Location` at " ++ hex_of_Z 0x0FF0);
                (Error,
                 lit "Unable to create `core::panic::Location` data variable at {location:#x}") ]
    /\ data_vars bv' = data_vars Variants.registered.
Proof.
  apply (refused_definition_logged_as_defined Variants.registered
           CorePanicLocation.location_type 0x0FF0 (lit "panic_location_None"));
    vm_compute; reflexivity.
Defined.

(** ** The entry point *)

Lemma synthesize_without_type_at bv candidates :
  types bv !! CorePanicLocation.type_name = None ->
  set_panic_locations_from_source_file_path_string_variables candidates bv = Returned [] bv.
Proof.
  intros Ht.
  unfold set_panic_locations_from_source_file_path_string_variables,
    CorePanicLocation.check_binary_ninja_type_exists, bind, Host.get_type_by_name, ret.
  rewrite Ht, bool_decide_eq_false_2 by (intros [? ?]; discriminate). reflexivity.
Qed.

(** X14: with no string-view reference to scan, [main] returns having
    opened and closed the undo bracket around nothing: apart from the
    type registration that precedes the bracket, no call creates
    anything, and data variables, tag types and tags are as before. *)
Theorem main_without_references (bv : BinaryView) :
  default [] (data_refs_for_type bv !! lit "&str") = [] ->
  exists bv',
    main bv = Returned tt bv'
    /\ calls bv'
       = calls bv ++ registration_calls bv
           ++ [CallBeginUndoActions; CallCommitUndoActions; CallUpdateAnalysis]
    /\ data_vars bv' = data_vars bv
    /\ tag_types bv' = tag_types bv
    /\ tags bv' = tags bv.
Proof.
  intros Hrefs.
  assert (Hfind : find_string_slice_variables_containing_source_file_path bv
                  = Returned [] bv).
  { unfold find_string_slice_variables_containing_source_file_path, bind,
      Host.get_data_refs_for_type. rewrite Hrefs. reflexivity. }
  rewrite main_opened. unfold bind. rewrite find_opened, Hfind. cbn [retarget].
  unfold set_panic_locations_from_source_file_path_string_variables,
    CorePanicLocation.check_binary_ninja_type_exists, bind, Host.get_type_by_name, ret.
  assert (Hsynth : (if bool_decide (is_Some (types (opened bv) !! CorePanicLocation.type_name))
                    then for_each [] synthesize_one [] else fun bv0 => Returned [] bv0)
                     (opened bv) = Returned [] (opened bv)).
  { destruct (bool_decide _); reflexivity. }
  rewrite Hsynth. cbn -[opened registration_calls].
  eexists. split; [reflexivity|]. cbn -[opened registration_calls].
  rewrite calls_opened, data_vars_opened, <- !app_assoc.
  unfold opened, CorePanicLocation.create_binary_ninja_type, bind, Host.get_arch.
  destruct (arch bv); cbn; auto.
Qed.

Lemma main_without_references_witness :
  exists bv',
    main Corners.no_refs = Returned tt bv'
    /\ calls bv'
       = calls Corners.no_refs ++ registration_calls Corners.no_refs
           ++ [CallBeginUndoActions; CallCommitUndoActions; CallUpdateAnalysis]
    /\ data_vars bv' = data_vars Corners.no_refs
    /\ tag_types bv' = tag_types Corners.no_refs
    /\ tags bv' = tags Corners.no_refs.
Proof.
  apply (main_without_references Corners.no_refs). vm_compute. reflexivity.
Defined.

(** X15: without an architecture the record type is never registered,
    and unless it was registered before, the run creates nothing at
    all, whatever the scan finds: when the scan returns, [main] returns
    a view that differs from the one it was given only by the three
    calls of the undo bracket and the re-analysis. *)
Theorem main_without_architecture (bv : BinaryView) (candidates : list DataVariable) :
  arch bv = None ->
  types bv !! CorePanicLocation.type_name = None ->
  find_string_slice_variables_containing_source_file_path bv = Returned candidates bv ->
  main bv
  = Returned tt
      (with_calls
         (calls bv ++ [CallBeginUndoActions; CallCommitUndoActions; CallUpdateAnalysis]) bv).
Proof.
  intros Harch Htype Hfind.
  assert (Hopened : opened bv = Host.record_call CallBeginUndoActions bv).
  { unfold opened, CorePanicLocation.create_binary_ninja_type, bind, Host.get_arch.
    rewrite Harch. reflexivity. }
  rewrite main_opened. unfold bind. rewrite find_opened, Hfind. cbn [retarget].
  rewrite synthesize_without_type_at by (rewrite Hopened; exact Htype).
  rewrite Hopened.
  unfold Host.commit_undo_actions, Host.update_analysis, Host.record_call, with_calls. cbn.
  rewrite <- !app_assoc. reflexivity.
Qed.

Lemma main_without_architecture_witness :
  main Corners.no_arch
  = Returned tt
      (with_calls
         (calls Corners.no_arch
            ++ [CallBeginUndoActions; CallCommitUndoActions; CallUpdateAnalysis])
         Corners.no_arch).
Proof.
  apply (main_without_architecture Corners.no_arch [Scenario.slice_at_1000]);
    vm_compute; reflexivity.
Defined.

(** ** What the run adds to the tag store *)

Lemma grows_keep {A X} (f : BinaryView -> list X) (P : X -> Prop) (m : Py A) :
  preserves f m -> grows f P m.
Proof. intros H bv. exists []. rewrite H, app_nil_r. auto. Qed.

Lemma grows_bind {A B X} (f : BinaryView -> list X) (P : X -> Prop) (m : Py A) (k : A -> Py B) :
  grows f P m -> (forall a, grows f P (k a)) -> grows f P (bind m k).
Proof.
  intros Hm Hk bv. unfold bind. destruct (Hm bv) as (new & Hnew & HP).
  destruct (m bv) as [a bv'|e bv']; cbn [final_view] in Hnew.
  - destruct (Hk a bv') as (new' & Hnew' & HP'). exists (new ++ new').
    rewrite Hnew', Hnew, <- app_assoc. split; [reflexivity|]. apply Forall_app. auto.
  - exists new. auto.
Qed.

Lemma grows_for_each {A S X} (f : BinaryView -> list X) (P : X -> Prop) (l : list A)
    (body : A -> S -> Py S) :
  (forall x s, grows f P (body x s)) -> forall s, grows f P (for_each l body s).
Proof.
  intros Hbody. induction l as [|x l IH]; intros s; cbn [for_each].
  - apply grows_keep, preserves_ret.
  - apply grows_bind; [apply Hbody | exact IH].
Qed.

Lemma preserves_define_user_data_var {X} (f : BinaryView -> X) addr var_type name :
  (forall c bv, f (Host.record_call c bv) = f bv) ->
  (forall d bv, f (with_data_vars d bv) = f bv) ->
  preserves f (Host.define_user_data_var addr var_type name).
Proof.
  intros Hc Hd bv. unfold Host.define_user_data_var, bind, Host.parse_type_string.
  destruct (types bv !! Host.unquote var_type) as [t|]; [|reflexivity].
  destruct (record_view bv t (data_vars bv) addr); cbn [fmap option_fmap option_map final_view];
    rewrite Hc, ?Hd; reflexivity.
Qed.

Lemma preserves_synthesize {X} (f : BinaryView -> X) candidates :
  (forall c bv, f (Host.record_call c bv) = f bv) ->
  (forall d bv, f (with_data_vars d bv) = f bv) ->
  (forall l bv, f (with_log l bv) = f bv) ->
  preserves f (set_panic_locations_from_source_file_path_string_variables candidates).
Proof.
  intros Hc Hd Hl.
  unfold set_panic_locations_from_source_file_path_string_variables.
  apply preserves_bind; [intros bv; reflexivity|].
  intros [|]; [|apply preserves_ret].
  apply preserves_for_each. intros c acc. unfold synthesize_one.
  apply preserves_bind; [|intros [v|]; apply preserves_ret].
  unfold CorePanicLocation.create_binary_ninja_instance.
  apply preserves_bind; [apply preserves_define_user_data_var; assumption|]. intros r.
  apply preserves_bind; [apply preserves_log_info; exact Hl|]. intros _.
  apply preserves_bind; [|intros _; apply preserves_ret].
  destruct r; [apply preserves_ret | apply preserves_log_error; exact Hl].
Qed.

Lemma preserves_opening {X} (f : BinaryView -> X) :
  (forall c bv, f (Host.record_call c bv) = f bv) ->
  (forall t bv, f (with_types t bv) = f bv) ->
  (forall l bv, f (with_log l bv) = f bv) ->
  forall bv, f (opened bv) = f bv.
Proof.
  intros Hc Ht Hl bv.
  unfold opened, CorePanicLocation.create_binary_ninja_type, bind, Host.get_arch.
  destruct (arch bv); cbn [final_view Host.begin_undo_actions Host.define_user_type
                            Logger.log_info];
    rewrite ?Hc, ?Hl, ?Hc, ?Ht; reflexivity.
Qed.

(** The shape of the store after [main], given what each stage does
    to it. *)
Lemma main_grows {X} (f : BinaryView -> list X) (P : X -> Prop) :
  (forall c bv, f (Host.record_call c bv) = f bv) ->
  (forall t bv, f (with_types t bv) = f bv) ->
  (forall d bv, f (with_data_vars d bv) = f bv) ->
  (forall l bv, f (with_log l bv) = f bv) ->
  (forall records, grows f P (find_panic_location_code_refs_and_set_tags records)) ->
  grows f P main.
Proof.
  intros Hc Ht Hd Hl Hann bv. rewrite main_opened.
  rewrite <- (preserves_opening f Hc Ht Hl bv).
  generalize (opened bv). clear bv. intros bv.
  revert bv. change (grows f P
    (let! source_file_paths := find_string_slice_variables_containing_source_file_path in
     let! panic_locations :=
       set_panic_locations_from_source_file_path_string_variables source_file_paths in
     find_panic_location_code_refs_and_set_tags panic_locations >>
     Host.commit_undo_actions >> Host.update_analysis)).
  apply grows_bind.
  { apply grows_keep. intros bv. f_equal. apply (find_reads_only bv). }
  intros srcs. apply grows_bind.
  { apply grows_keep, preserves_synthesize; assumption. }
  intros locs. apply grows_bind; [apply Hann|]. intros _.
  apply grows_bind;
    [apply grows_keep; intros bv; apply Hc
    |intros _; apply grows_keep; intros bv; apply Hc].
Qed.

Lemma annotate_grows_tags printable records :
  grows tags (well_formed_tag printable) (find_panic_location_code_refs_and_set_tags records).
Proof.
  apply grows_for_each. intros record []. unfold annotate_one.
  apply grows_bind; [apply grows_keep; auto with preserve|]. intros file.
  apply grows_bind; [apply grows_keep; auto with preserve|]. intros address.
  apply grows_bind; [apply grows_keep; auto with preserve|].
  intros [string_data|]; [|apply grows_keep, preserves_ret].
  apply grows_bind; [apply grows_keep; auto with preserve|]. intros path.
  apply grows_bind; [apply grows_keep; auto with preserve|]. intros line.
  apply grows_bind; [apply grows_keep; auto with preserve|]. intros col.
  apply grows_bind; [apply grows_keep; intros bv; reflexivity|]. intros _.
  apply grows_bind; [apply grows_keep; auto with preserve|]. intros refs.
  apply grows_for_each. intros r []. unfold tag_code_ref.
  apply grows_bind; [apply grows_keep; auto with preserve|]. intros line_text.
  apply grows_bind; [apply grows_keep; auto with preserve|]. intros col_text.
  apply grows_bind; [|intros _; apply grows_keep, preserves_log_info; reflexivity].
  intros bv. unfold Host.add_tag. destruct (bool_decide _); cbn.
  - eexists [_]. split; [reflexivity|]. constructor; [|constructor].
    split; [reflexivity|]. exists path, (VStr line_text), (VStr col_text). auto.
  - exists []. rewrite app_nil_r. auto.
Qed.

Lemma annotate_grows_tag_types records :
  grows tag_types well_formed_tag_type (find_panic_location_code_refs_and_set_tags records).
Proof.
  apply grows_for_each. intros record []. unfold annotate_one.
  apply grows_bind; [apply grows_keep; auto with preserve|]. intros file.
  apply grows_bind; [apply grows_keep; auto with preserve|]. intros address.
  apply grows_bind; [apply grows_keep; auto with preserve|].
  intros [string_data|]; [|apply grows_keep, preserves_ret].
  apply grows_bind; [apply grows_keep; auto with preserve|]. intros path.
  apply grows_bind; [apply grows_keep; auto with preserve|]. intros line.
  apply grows_bind; [apply grows_keep; auto with preserve|]. intros col.
  apply grows_bind.
  { intros bv. eexists [_]. split; [reflexivity|]. constructor; [|constructor].
    split; [reflexivity|]. exists path. reflexivity. }
  intros _.
  apply grows_bind; [apply grows_keep; auto with preserve|]. intros refs.
  apply grows_keep, preserves_for_each. intros r []. unfold tag_code_ref.
  apply preserves_bind; [auto with preserve|]. intros line_text.
  apply preserves_bind; [auto with preserve|]. intros col_text.
  apply preserves_bind; [|intros _; apply preserves_log_info; reflexivity].
  intros bv. unfold Host.add_tag. destruct (bool_decide _); reflexivity.
Qed.

(** X16: whatever the view and however the run ends, [main] only
    appends to the tags, and every tag it appends is a user tag whose
    type name is a decoded path followed by
    [" - Rust Panic Location Source File Path"] and whose text is that
    same path followed by [": line <line>, col <col>"]. *)
Theorem main_adds_only_user_tags (bv : BinaryView) :
  exists new,
    tags (final_view (main bv)) = tags bv ++ new
    /\ Forall (well_formed_tag (isprintable bv)) new.
Proof.
  apply (main_grows tags (well_formed_tag (isprintable bv))); try reflexivity.
  apply annotate_grows_tags.
Qed.

(** X17: [main] only appends to the tag types, and every tag type it
    appends carries the screaming-face icon and a name that is a
    decoded path followed by the fixed suffix. *)
Theorem main_adds_only_panic_tag_types (bv : BinaryView) :
  exists new,
    tag_types (final_view (main bv)) = tag_types bv ++ new
    /\ Forall well_formed_tag_type new.
Proof.
  apply (main_grows tag_types well_formed_tag_type); try reflexivity.
  apply annotate_grows_tag_types.
Qed.

(** ** Type registration *)

(** X18: registering the record type touches one name of the registry
    and nothing else of the analysis: every other registered type, the
    data variables, the code references, the tag types and the tags are
    as before. *)
Theorem create_type_touches_one_name (bv : BinaryView) (name : pystr) :
  name <> CorePanicLocation.type_name ->
  let bv' := final_view (CorePanicLocation.create_binary_ninja_type bv) in
  types bv' !! name = types bv !! name
  /\ data_vars bv' = data_vars bv
  /\ code_refs bv' = code_refs bv
  /\ tag_types bv' = tag_types bv
  /\ tags bv' = tags bv.
Proof.
  intros Hne. unfold CorePanicLocation.create_binary_ninja_type, bind, Host.get_arch.
  destruct (arch bv); cbn -[lookup insert]; [|auto].
  rewrite lookup_insert_ne by congruence. auto.
Qed.

Lemma create_type_touches_one_name_witness :
  let bv' := final_view (CorePanicLocation.create_binary_ninja_type Scenario.bv) in
  types bv' !! lit "&str" = types Scenario.bv !! lit "&str"
  /\ data_vars bv' = data_vars Scenario.bv
  /\ code_refs bv' = code_refs Scenario.bv
  /\ tag_types bv' = tag_types Scenario.bv
  /\ tags bv' = tags Scenario.bv.
Proof.
  apply (create_type_touches_one_name Scenario.bv (lit "&str")). discriminate.
Defined.

(** ** The classifier on whole families of paths *)

Lemma split_nonempty sep s : split sep s <> [].
Proof.
  destruct s as [|c s]; cbn; [discriminate|].
  destruct (c =? sep)%N; [discriminate|]. destruct (split sep s); discriminate.
Qed.

Lemma split_without_separator sep s : sep ∉ s -> split sep s = [s].
Proof.
  induction s as [|c s IH]; intros H; cbn; [reflexivity|].
  apply not_elem_of_cons in H as [Hne H].
  destruct (N.eqb_spec c sep) as [->|_]; [congruence|]. rewrite (IH H). reflexivity.
Qed.

Lemma split_at_separator sep x y :
  split sep (x ++ sep :: y) = split sep x ++ split sep y.
Proof.
  induction x as [|c x IH]; cbn.
  - rewrite N.eqb_refl. reflexivity.
  - destruct (c =? sep)%N.
    + rewrite IH. reflexivity.
    + rewrite IH. destruct (split sep x) as [|h t] eqn:Hx; [|reflexivity].
      destruct (split_nonempty _ _ Hx).
Qed.

Lemma rfind_aux_app c a b i best :
  rfind_aux c (a ++ b) i best = rfind_aux c b (i + length a) (rfind_aux c a i best).
Proof.
  revert i best. induction a as [|x a IH]; intros i best; cbn.
  - rewrite Nat.add_0_r. reflexivity.
  - rewrite IH. f_equal. lia.
Qed.

Lemma rfind_aux_absent c s i best : c ∉ s -> rfind_aux c s i best = best.
Proof.
  revert i best. induction s as [|x s IH]; intros i best H; cbn; [reflexivity|].
  apply not_elem_of_cons in H as [Hne H]. rewrite (IH _ _ H).
  destruct (N.eqb_spec x c) as [->|_]; [congruence | reflexivity].
Qed.

Lemma suffix_of_name fl raw stem :
  last (parse_tail fl raw) = Some (stem ++ lit ".rs") ->
  stem <> [] ->
  suffix {| path_flavour := fl; raw_path := raw |} = lit ".rs".
Proof.
  intros Hlast Hstem. unfold suffix, name. cbn [path_flavour raw_path]. rewrite Hlast.
  unfold rfind. rewrite rfind_aux_app.
  change (rfind_aux 46 (lit ".rs") (0 + length stem) (rfind_aux 46 stem 0 None))
    with (Some (length stem)).
  assert (Hlen : (0 < length stem)%nat) by (destruct stem; [congruence | cbn; lia]).
  rewrite length_app. change (length (lit ".rs")) with 3%nat.
  replace (0 <? length stem)%nat with true by (symmetry; apply Nat.ltb_lt; lia).
  replace (length stem <? length stem + 3 - 1)%nat with true
    by (symmetry; apply Nat.ltb_lt; lia).
  cbn [andb]. apply drop_app_length.
Qed.

Ltac decide_slices :=
  cbn; rewrite ?take_0; repeat (case_bool_decide; try congruence; cbn; rewrite ?take_0).

(** The tail of a POSIX path that ends in a component [name]: the
    root takes at most the leading slashes. *)
Lemma posix_tail_keeps_name dir name c0 rest :
  name = c0 :: rest -> c0 <> 47%N ->
  dir = [] \/ (exists dir0, dir = dir0 ++ [47%N]) ->
  exists x,
    snd (posix_splitroot (dir ++ name)) = x ++ name
    /\ (x = [] \/ exists x0, x = x0 ++ [47%N]).
Proof.
  intros -> Hc0 Hdir. unfold posix_splitroot, str_eqb, slice.
  destruct Hdir as [-> | (dir0 & ->)].
  { decide_slices. exists []. auto. }
  destruct dir0 as [|c1 dir1].
  { decide_slices. exists []. auto. }
  destruct (decide (c1 = 47%N)) as [->|Hc1].
  2:{ decide_slices. exists ((c1 :: dir1) ++ [47%N]).
      split; [rewrite <- ?app_assoc; reflexivity | eauto]. }
  destruct dir1 as [|c2 dir2].
  { decide_slices. exists []. auto. }
  destruct (decide (c2 = 47%N)) as [->|Hc2].
  2:{ decide_slices. exists ((c2 :: dir2) ++ [47%N]).
      split; [rewrite <- ?app_assoc; reflexivity | eauto]. }
  destruct dir2 as [|c3 dir3].
  { decide_slices. exists ([47%N] ++ [47%N]). split; [reflexivity | eauto]. }
  destruct (decide (c3 = 47%N)) as [->|Hc3].
  - decide_slices. exists ((47%N :: 47%N :: dir3) ++ [47%N]).
    split; [rewrite <- ?app_assoc; reflexivity | eauto].
  - decide_slices. exists ((c3 :: dir3) ++ [47%N]).
    split; [rewrite <- ?app_assoc; reflexivity | eauto].
Qed.

Lemma last_component x name :
  x = [] \/ (exists x0, x = x0 ++ [47%N]) ->
  47%N ∉ name -> name <> [] -> name <> [46%N] ->
  last (List.filter (fun c => negb (str_eqb c []) && negb (str_eqb c [46%N]))
          (split 47 (x ++ name))) = Some name.
Proof.
  intros Hx Hsep Hne Hdot.
  assert (Hkeep : List.filter (fun c => negb (str_eqb c []) && negb (str_eqb c [46%N])) [name]
                  = [name]).
  { cbn. unfold str_eqb. rewrite !bool_decide_eq_false_2 by assumption. reflexivity. }
  destruct Hx as [-> | (x0 & ->)].
  - cbn [app]. rewrite split_without_separator by assumption. rewrite Hkeep. reflexivity.
  - rewrite <- app_assoc. cbn [app]. rewrite split_at_separator.
    rewrite (split_without_separator 47 name) by assumption.
    rewrite List.filter_app, Hkeep. apply last_snoc.
Qed.

Lemma parse_tail_posix raw :
  raw <> [] ->
  parse_tail posixpath raw
  = List.filter (fun x => negb (str_eqb x []) && negb (str_eqb x [46%N]))
      (split 47 (snd (posix_splitroot raw))).
Proof.
  intros H. destruct raw as [|c raw]; [congruence|].
  unfold parse_tail, splitroot. destruct (posix_splitroot (c :: raw)) as [[drv root] rel].
  reflexivity.
Qed.

(** X19: on a platform whose name does not contain "windows", every
    path whose last component is a non-empty stem followed by [.rs] is
    classified as a source file, whatever directories precede it --
    relative, absolute, or with repeated slashes. *)
Theorem posix_rs_path_accepted (p dir stem : pystr) :
  contains (lit "windows") p = false ->
  stem <> [] ->
  47%N ∉ stem ->
  dir = [] \/ (exists dir0, dir = dir0 ++ [47%N]) ->
  is_source_file_path p (PText (dir ++ stem ++ lit ".rs")) = true.
Proof.
  intros Hp Hstem Hsep Hdir.
  unfold is_source_file_path, path_for_platform. rewrite Hp. cbn [new_path].
  unfold str_eqb. apply bool_decide_eq_true. apply (suffix_of_name _ _ stem); [|exact Hstem].
  destruct stem as [|c0 rest] eqn:Estem; [congruence|]. rewrite <- Estem in *.
  assert (Hc0 : c0 <> 47%N).
  { intros ->. apply Hsep. rewrite Estem. constructor. }
  assert (Hname : 47%N ∉ stem ++ lit ".rs").
  { intros H. apply elem_of_app in H as [H|H]; [exact (Hsep H)|].
    cbn in H. repeat (apply elem_of_cons in H as [H|H]; [discriminate H|]). inversion H. }
  destruct (posix_tail_keeps_name dir (stem ++ lit ".rs") c0 (rest ++ lit ".rs"))
    as (x & Hrel & Hx); [rewrite Estem; reflexivity | exact Hc0 | exact Hdir |].
  rewrite parse_tail_posix by (destruct dir; rewrite Estem; discriminate).
  rewrite Hrel.
  apply last_component; [exact Hx | exact Hname | |].
  - rewrite Estem. discriminate.
  - rewrite Estem. destruct rest; discriminate.
Qed.

Lemma posix_rs_path_accepted_witness :
  is_source_file_path (lit "linux")
    (PText (lit "//home/user/.cargo/registry/" ++ lit "lib" ++ lit ".rs")) = true.
Proof.
  apply (posix_rs_path_accepted (lit "linux") (lit "//home/user/.cargo/registry/") (lit "lib")).
  - vm_compute. reflexivity.
  - discriminate.
  - cbn. intros H. repeat (apply elem_of_cons in H as [H|H]; [discriminate H|]). inversion H.
  - right. exists (lit "//home/user/.cargo/registry"). reflexivity.
Defined.

Lemma elem_of_drop_inv {A} (n : nat) (l : list A) (x : A) : x ∈ drop n l -> x ∈ l.
Proof. intros H. rewrite <- (take_drop n l). apply elem_of_app. auto. Qed.

Lemma elem_of_split sep s :
  forall x, x ∈ split sep s -> forall c, c ∈ x -> c ∈ s.
Proof.
  induction s as [|c0 s IH]; cbn; intros x Hx c Hc.
  - apply elem_of_cons in Hx as [-> | Hx]; [exact Hc | inversion Hx].
  - destruct (c0 =? sep)%N.
    + apply elem_of_cons in Hx as [-> | Hx]; [inversion Hc|].
      apply elem_of_cons. right. exact (IH x Hx c Hc).
    + destruct (split sep s) as [|h t] eqn:Hs.
      * apply elem_of_cons in Hx as [-> | Hx]; [|inversion Hx].
        apply elem_of_cons in Hc as [-> | Hc]; [constructor | inversion Hc].
      * apply elem_of_cons in Hx as [-> | Hx].
        -- apply elem_of_cons in Hc as [-> | Hc]; [constructor|].
           apply elem_of_cons. right. apply (IH h); [constructor | exact Hc].
        -- apply elem_of_cons. right. apply (IH x); [constructor; exact Hx | exact Hc].
Qed.

Lemma elem_of_replace a b s c : c ∈ replace a b s -> c <> b -> c ∈ s.
Proof.
  unfold replace. intros H Hne. apply list_elem_of_In, in_map_iff in H as (c' & Hc' & Hin).
  apply list_elem_of_In. destruct (c' =? a)%N; [congruence|]. subst c'. exact Hin.
Qed.

Lemma posix_tail_within p c : c ∈ snd (posix_splitroot p) -> c ∈ p.
Proof.
  unfold posix_splitroot. repeat case_scrutinee; cbn [snd]; intros H;
    try exact H; eapply elem_of_drop_inv; exact H.
Qed.

Lemma nt_tail_within p c : c ∈ snd (nt_splitroot p) -> c ∈ p.
Proof.
  unfold nt_splitroot. cbv zeta. repeat case_scrutinee; cbn [snd]; intros H;
    try exact H; try (inversion H; fail); eapply elem_of_drop_inv; exact H.
Qed.

Lemma parse_tail_within fl raw n c :
  n ∈ parse_tail fl raw -> c ∈ n -> c <> 92%N -> c ∈ raw.
Proof.
  unfold parse_tail. destruct raw as [|c0 raw]; [intros H; inversion H|].
  set (path := c0 :: raw). intros Hn Hc Hne.
  destruct fl; unfold splitroot in Hn.
  - destruct (posix_splitroot path) as [[drv root] rel] eqn:Hsplit.
    apply list_elem_of_In, filter_In in Hn as [Hn _]. apply list_elem_of_In in Hn.
    apply posix_tail_within. rewrite Hsplit. cbn [snd].
    exact (elem_of_split _ _ _ Hn _ Hc).
  - destruct (nt_splitroot (replace 47 92 path)) as [[drv root] rel] eqn:Hsplit.
    apply list_elem_of_In, filter_In in Hn as [Hn _]. apply list_elem_of_In in Hn.
    apply (elem_of_replace 47 92); [|exact Hne].
    apply nt_tail_within. rewrite Hsplit. cbn [snd].
    exact (elem_of_split _ _ _ Hn _ Hc).
Qed.

(** X20: on any platform, text without a dot is never classified as
    a source file. *)
Theorem dotless_text_rejected (p s : pystr) :
  46%N ∉ s -> is_source_file_path p (PText s) = false.
Proof.
  intros Hdot. unfold is_source_file_path, str_eqb. apply bool_decide_eq_false.
  assert (Hsuffix : forall fl, suffix {| path_flavour := fl; raw_path := s |} = []).
  { intros fl. unfold suffix, name. cbn [path_flavour raw_path].
    destruct (last (parse_tail fl s)) as [n|] eqn:Hlast; [|reflexivity].
    unfold rfind. rewrite rfind_aux_absent; [reflexivity|].
    intros Hn. apply Hdot.
    apply (parse_tail_within fl s n); [exact (last_Some_elem_of _ _ Hlast) | exact Hn|].
    discriminate. }
  unfold path_for_platform. destruct (contains (lit "windows") p); cbn [new_path];
    rewrite Hsuffix; discriminate.
Qed.

Lemma dotless_text_rejected_witness :
  is_source_file_path (lit "windows-x86_64") (PText (lit "C:\Users\dev\Makefile")) = false.
Proof.
  apply (dotless_text_rejected (lit "windows-x86_64") (lit "C:\Users\dev\Makefile")).
  cbn. intros H. repeat (apply elem_of_cons in H as [H|H]; [discriminate H|]). inversion H.
Defined.

(** ** A host that refuses *)

Lemma synthesize_loop_refused candidates :
  forall acc bv t,
    types bv !! CorePanicLocation.type_name = Some t ->
    (forall t objs a, record_view bv t objs a = None) ->
    exists bv',
      for_each candidates synthesize_one acc bv = Returned acc bv'
      /\ data_vars bv' = data_vars bv
      /\ tag_types bv' = tag_types bv
      /\ tags bv' = tags bv.
Proof.
  induction candidates as [|c candidates IH]; intros acc bv t Ht Hrefuse.
  - exists bv. auto.
  - rewrite synthesize_step.
    unfold CorePanicLocation.create_binary_ninja_instance, Host.define_user_data_var, bind,
      Host.parse_type_string.
    rewrite unquote_location, Ht, Hrefuse. cbn.
    match goal with
    | |- context [for_each candidates synthesize_one acc ?bv1] =>
        destruct (IH acc bv1 t) as (bv' & -> & Hdata & Htt & Htags);
          [exact Ht | exact Hrefuse |]
    end.
    exists bv'. auto.
Qed.

(** X21: no record, no tag.  If the host refuses every definition,
    then however many candidates the scan returns, [main] returns with
    the data variables, the tag types and the tags as they were. *)
Theorem refusing_host_gets_no_tags (bv : BinaryView) (candidates : list DataVariable) :
  (forall t objs a, record_view bv t objs a = None) ->
  find_string_slice_variables_containing_source_file_path bv = Returned candidates bv ->
  exists bv',
    main bv = Returned tt bv'
    /\ data_vars bv' = data_vars bv
    /\ tag_types bv' = tag_types bv
    /\ tags bv' = tags bv.
Proof.
  intros Hrefuse Hfind.
  assert (Hview : record_view (opened bv) = record_view bv).
  { apply (preserves_opening record_view); reflexivity. }
  assert (Htt0 : tag_types (opened bv) = tag_types bv).
  { apply (preserves_opening tag_types); reflexivity. }
  assert (Htags0 : tags (opened bv) = tags bv).
  { apply (preserves_opening tags); reflexivity. }
  assert (Hsynth : exists bv1,
             set_panic_locations_from_source_file_path_string_variables candidates (opened bv)
             = Returned [] bv1
             /\ data_vars bv1 = data_vars bv
             /\ tag_types bv1 = tag_types bv
             /\ tags bv1 = tags bv).
  { unfold set_panic_locations_from_source_file_path_string_variables,
      CorePanicLocation.check_binary_ninja_type_exists, bind, Host.get_type_by_name, ret.
    destruct (types (opened bv) !! CorePanicLocation.type_name) as [t|] eqn:Ht.
    - rewrite bool_decide_eq_true_2 by eauto.
      destruct (synthesize_loop_refused candidates [] (opened bv) t Ht)
        as (bv1 & H & Hdata & Htt & Htags).
      { intros t0 objs a. rewrite Hview. apply Hrefuse. }
      exists bv1. rewrite H, Hdata, Htt, Htags, data_vars_opened. auto.
    - rewrite bool_decide_eq_false_2 by (intros [? ?]; discriminate).
      exists (opened bv). rewrite data_vars_opened. auto. }
  destruct Hsynth as (bv1 & Hsynth & Hdata & Htt & Htags).
  rewrite main_opened. unfold bind. rewrite find_opened, Hfind. cbn [retarget].
  rewrite Hsynth. cbn. eexists. split; [reflexivity|]. cbn. auto.
Qed.

Lemma refusing_host_gets_no_tags_witness :
  exists bv',
    main Corners.refusing = Returned tt bv'
    /\ data_vars bv' = data_vars Corners.refusing
    /\ tag_types bv' = tag_types Corners.refusing
    /\ tags bv' = tags Corners.refusing.
Proof.
  apply (refusing_host_gets_no_tags Corners.refusing [Scenario.slice_at_1000]).
  - reflexivity.
  - vm_compute. reflexivity.
Defined.
